(** * Telemetry capture layer of the AG Grid demo (src/App.tsx)

    A shallow embedding of the telemetry service ([createTelemetryService]),
    of the [App] component's extraction callbacks and of the debounced
    scroll handler, together with the properties of the event pipeline.

    Modelling conventions
    - a JS [number] that carries a price, a quantity or an aggregate is an
      IEEE-754 binary64 value: Rocq's primitive [float];
    - row indices, scroll offsets and the millisecond clock are integers ([Z]),
      array lengths are [nat];
    - JS arrays of telemetry events live in a [heap] indexed by locations, so
      that aliasing between [telemetry.events] and the copies handed to React
      state is explicit;
    - the host's timer table ([setTimeout]/[clearTimeout]) is a list of armed
      timers with absolute deadlines on the millisecond clock. *)

From Stdlib Require Import ZArith Floats.PrimFloat Numbers.Cyclic.Int63.Uint63.
From stdpp Require Import base option list gmap strings.
From Equations Require Import Equations.

Local Open Scope Z_scope.

(** ** JS numbers *)

Module JS.
Definition number := float.

(** [Array.prototype.length] used as an operand of [/]: lengths are below
    2^32, so the conversion to binary64 is exact. *)
Definition of_length (n : nat) : number :=
  PrimFloat.of_uint63 (Uint63.of_Z (Z.of_nat n)).

Definition zero : number := 0%float.
End JS.

(** ** Data types *)

Module Row.
(** [interface RowData] *)
Record RowData := mk {
  id : Z;
  product : string;
  category : string;
  price : JS.number;
  quantity : JS.number;
  inStock : bool;
  lastUpdated : string }.
End Row.
Abbreviation RowData := Row.RowData.

(** A row node of the grid: [node.data] may be undefined, [node.isSelected()]. *)
Record RowNode := {
  node_data : option RowData;
  isSelected : bool }.

Module Col.
(** [ColumnState] entries as read by [extractAllGridData]. *)
Record ColumnState := mk {
  colId : string;
  width : option Z;
  hide : option bool;
  sort : option string;
  sortIndex : option Z;
  pinned : option string }.
End Col.
Abbreviation ColumnState := Col.ColumnState.

(** The filter model is an object keyed by column id whose values are shaped
    by the grid library; it is passed through untouched. *)
Definition FilterModel := list (string * string).

Module Scroll.
(** [BodyScrollEvent]: the fields the scroll handler reads. *)
Record BodyScrollEvent := mk {
  direction : string;
  top : Z;
  left : Z }.
End Scroll.
Abbreviation BodyScrollEvent := Scroll.BodyScrollEvent.

(** *** Payloads ([data: unknown], one shape per event type) *)

Record VisibleViewport := {
  firstRowIndex : Z;
  lastRowIndex : Z;
  visibleRowCount : nat }.

Record GridMetadata := {
  totalRows : nat;
  displayedRows : nat;
  selectedRowsMeta : nat }.

Record Aggregations := {
  totalInventoryValue : JS.number;
  avgPrice : JS.number;
  inStockCount : nat;
  outOfStockCount : nat }.

Record ScrollViewport := {
  sv_firstRow : Z;
  sv_lastRow : Z;
  sv_visibleRowCount : Z }.

Inductive Payload :=
| GridInitialized (totalRows : nat) (columns : list string) (gridVersion : string)
| VisibleRowsExtracted (viewport : VisibleViewport) (visibleRows : list RowData)
    (visibleProductIds : list Z) (totalValue : JS.number)
| SelectedRowsExtracted (selectedCount : nat) (selectedRows : list RowData)
    (selectedIds : list Z) (totalSelectedValue : JS.number)
| FullGridStateExtracted (gridMetadata : GridMetadata) (allData : list RowData)
    (columnState : list ColumnState) (activeFilters : FilterModel)
    (viewport : Z * Z) (aggregations : Aggregations)
| RowSelected (rowId : Z) (rowData : RowData) (selectionSource : string)
| GridScrolled (scrollDirection : string) (viewport : ScrollViewport)
    (scrollPosition : Z * Z).

Module Event.
(** [interface TelemetryEvent].  [id] is the ordinal of the
    [crypto.randomUUID()] draw that produced it and [timestamp] is the
    millisecond clock that [new Date().toISOString()] renders. *)
Record TelemetryEvent := mk {
  id : nat;
  eventType : string;
  timestamp : Z;
  data : Payload }.
End Event.
Abbreviation TelemetryEvent := Event.TelemetryEvent.

(** ** The grid capability surface

    The state of the AG Grid instance as seen through the [GridApi] calls the
    component makes.  The instance is a mutable object owned by the library;
    [GridApi] is the reference to it that [onGridReady] stores in React state. *)

Record Grid := {
  getFirstDisplayedRowIndex : Z;
  getLastDisplayedRowIndex : Z;
  getDisplayedRowAtIndex : Z -> option RowNode;
  getSelectedRows : list RowData;
  forEachNode : list RowNode;
  getColumnState : list ColumnState;
  getFilterModel : FilterModel;
  getDisplayedRowCount : nat }.

Inductive GridApi := TheGrid.

(** ** Host state: heap of event arrays, console, clock, timers *)

Definition loc := nat.

(** An armed [setTimeout] of the scroll handler: its closure captures the
    [gridApi] of the render and the triggering [event]. *)
Record Timer := {
  handle : positive;
  deadline : Z;
  closure_api : GridApi;
  closure_event : BodyScrollEvent }.

Record Stats := {
  totalEvents : nat;
  visibleRowsStat : nat;
  selectedRowsStat : nat }.

(** [interface TelemetryService]: [events] is the array itself. *)
Record TelemetryService := { events : loc }.

Record World := {
  heap : gmap nat (list TelemetryEvent);
  next_loc : loc;
  console : list TelemetryEvent;      (* console.log trace, oldest first *)
  clock : Z;                          (* Date.now() *)
  uuid_draws : nat;                   (* crypto.randomUUID() calls so far *)
  timers : list Timer;                (* armed timers of the host *)
  next_handle : positive;
  grid : Grid;                        (* the AG Grid instance *)
  (* module-level singleton *)
  telemetry : TelemetryService;
  (* React state and refs of <App> *)
  gridApi : option GridApi;
  telemetryEvents : loc;
  stats : Stats;
  scrollTimeoutRef : option positive }.

Definition set_heap (h : gmap nat (list TelemetryEvent)) (w : World) : World :=
  {| heap := h; next_loc := next_loc w; console := console w; clock := clock w;
     uuid_draws := uuid_draws w; timers := timers w; next_handle := next_handle w;
     grid := grid w; telemetry := telemetry w; gridApi := gridApi w;
     telemetryEvents := telemetryEvents w; stats := stats w;
     scrollTimeoutRef := scrollTimeoutRef w |}.

Definition set_next_loc (l : loc) (w : World) : World :=
  {| heap := heap w; next_loc := l; console := console w; clock := clock w;
     uuid_draws := uuid_draws w; timers := timers w; next_handle := next_handle w;
     grid := grid w; telemetry := telemetry w; gridApi := gridApi w;
     telemetryEvents := telemetryEvents w; stats := stats w;
     scrollTimeoutRef := scrollTimeoutRef w |}.

Definition set_console (c : list TelemetryEvent) (w : World) : World :=
  {| heap := heap w; next_loc := next_loc w; console := c; clock := clock w;
     uuid_draws := uuid_draws w; timers := timers w; next_handle := next_handle w;
     grid := grid w; telemetry := telemetry w; gridApi := gridApi w;
     telemetryEvents := telemetryEvents w; stats := stats w;
     scrollTimeoutRef := scrollTimeoutRef w |}.

Definition set_clock (t : Z) (w : World) : World :=
  {| heap := heap w; next_loc := next_loc w; console := console w; clock := t;
     uuid_draws := uuid_draws w; timers := timers w; next_handle := next_handle w;
     grid := grid w; telemetry := telemetry w; gridApi := gridApi w;
     telemetryEvents := telemetryEvents w; stats := stats w;
     scrollTimeoutRef := scrollTimeoutRef w |}.

Definition set_uuid_draws (n : nat) (w : World) : World :=
  {| heap := heap w; next_loc := next_loc w; console := console w; clock := clock w;
     uuid_draws := n; timers := timers w; next_handle := next_handle w;
     grid := grid w; telemetry := telemetry w; gridApi := gridApi w;
     telemetryEvents := telemetryEvents w; stats := stats w;
     scrollTimeoutRef := scrollTimeoutRef w |}.

Definition set_timers (ts : list Timer) (w : World) : World :=
  {| heap := heap w; next_loc := next_loc w; console := console w; clock := clock w;
     uuid_draws := uuid_draws w; timers := ts; next_handle := next_handle w;
     grid := grid w; telemetry := telemetry w; gridApi := gridApi w;
     telemetryEvents := telemetryEvents w; stats := stats w;
     scrollTimeoutRef := scrollTimeoutRef w |}.

Definition set_next_handle (h : positive) (w : World) : World :=
  {| heap := heap w; next_loc := next_loc w; console := console w; clock := clock w;
     uuid_draws := uuid_draws w; timers := timers w; next_handle := h;
     grid := grid w; telemetry := telemetry w; gridApi := gridApi w;
     telemetryEvents := telemetryEvents w; stats := stats w;
     scrollTimeoutRef := scrollTimeoutRef w |}.

Definition set_grid (g : Grid) (w : World) : World :=
  {| heap := heap w; next_loc := next_loc w; console := console w; clock := clock w;
     uuid_draws := uuid_draws w; timers := timers w; next_handle := next_handle w;
     grid := g; telemetry := telemetry w; gridApi := gridApi w;
     telemetryEvents := telemetryEvents w; stats := stats w;
     scrollTimeoutRef := scrollTimeoutRef w |}.

Definition set_telemetry (svc : TelemetryService) (w : World) : World :=
  {| heap := heap w; next_loc := next_loc w; console := console w; clock := clock w;
     uuid_draws := uuid_draws w; timers := timers w; next_handle := next_handle w;
     grid := grid w; telemetry := svc; gridApi := gridApi w;
     telemetryEvents := telemetryEvents w; stats := stats w;
     scrollTimeoutRef := scrollTimeoutRef w |}.

Definition setGridApi (a : option GridApi) (w : World) : World :=
  {| heap := heap w; next_loc := next_loc w; console := console w; clock := clock w;
     uuid_draws := uuid_draws w; timers := timers w; next_handle := next_handle w;
     grid := grid w; telemetry := telemetry w; gridApi := a;
     telemetryEvents := telemetryEvents w; stats := stats w;
     scrollTimeoutRef := scrollTimeoutRef w |}.

Definition set_telemetryEvents (l : loc) (w : World) : World :=
  {| heap := heap w; next_loc := next_loc w; console := console w; clock := clock w;
     uuid_draws := uuid_draws w; timers := timers w; next_handle := next_handle w;
     grid := grid w; telemetry := telemetry w; gridApi := gridApi w;
     telemetryEvents := l; stats := stats w;
     scrollTimeoutRef := scrollTimeoutRef w |}.

(** [setStats(prev => f prev)] *)
Definition setStats (f : Stats -> Stats) (w : World) : World :=
  {| heap := heap w; next_loc := next_loc w; console := console w; clock := clock w;
     uuid_draws := uuid_draws w; timers := timers w; next_handle := next_handle w;
     grid := grid w; telemetry := telemetry w; gridApi := gridApi w;
     telemetryEvents := telemetryEvents w; stats := f (stats w);
     scrollTimeoutRef := scrollTimeoutRef w |}.

Definition set_scrollTimeoutRef (r : option positive) (w : World) : World :=
  {| heap := heap w; next_loc := next_loc w; console := console w; clock := clock w;
     uuid_draws := uuid_draws w; timers := timers w; next_handle := next_handle w;
     grid := grid w; telemetry := telemetry w; gridApi := gridApi w;
     telemetryEvents := telemetryEvents w; stats := stats w;
     scrollTimeoutRef := r |}.

(** *** Arrays on the heap *)

(** Reading through a reference; a dangling reference reads as empty. *)
Definition deref (l : loc) (w : World) : list TelemetryEvent :=
  default [] (heap w !! l).

(** A fresh array holding [xs]; returns its location. *)
Definition alloc (xs : list TelemetryEvent) (w : World) : loc * World :=
  (next_loc w, set_next_loc (S (next_loc w)) (set_heap (<[next_loc w := xs]> (heap w)) w)).

Definition store (l : loc) (xs : list TelemetryEvent) (w : World) : World :=
  set_heap (<[l := xs]> (heap w)) w.

(** An in-place mutation of the array at [l]. *)
Definition modify (l : loc) (f : list TelemetryEvent -> list TelemetryEvent) (w : World)
  : World :=
  store l (f (deref l w)) w.

(** [Array.prototype.unshift] and [pop] on the contents. *)
Definition unshift {A} (x : A) (xs : list A) : list A := x :: xs.
Definition pop {A} (xs : list A) : list A := removelast xs.

(** ** The telemetry service *)

(** [telemetry.events] as the service sees it. *)
Definition buffer (w : World) : list TelemetryEvent :=
  deref (events (telemetry w)) w.

(** [send(eventType, data)]: stamp the event, [events.unshift(event)],
    [if (events.length > 50) events.pop()], [console.log], return the event.
    Both array statements mutate the one array [events] in place. *)
Definition send (eventType : string) (data : Payload) (w : World)
  : TelemetryEvent * World :=
  let event := Event.mk (uuid_draws w) eventType (clock w) data in
  let w := set_uuid_draws (S (uuid_draws w)) w in
  let arr := events (telemetry w) in
  let w := modify arr (unshift event) w in
  let w := modify arr (fun events =>
             if (50 <? length events)%nat then pop events else events) w in
  let w := set_console (console w ++ [event]) w in
  (event, w).

(** [clear()]: [events.length = 0] truncates the array in place. *)
Definition clear (w : World) : World :=
  modify (events (telemetry w)) (fun _ => []) w.

(** [createTelemetryService()]: allocates the [events] array and returns the
    service object that shares it. *)
Definition createTelemetryService (w : World) : TelemetryService * World :=
  let '(arr, w) := alloc [] w in
  ({| events := arr |}, w).

(** ** The [App] component *)

(** [gridApi.someCall()] reads the instance behind the reference at the
    moment of the call. *)
Definition api_grid (api : GridApi) (w : World) : Grid := grid w.

(** [sendTelemetryEvent]: send, publish a spread copy of the buffer to React
    state, refresh the event counter. *)
Definition sendTelemetryEvent (eventType : string) (data : Payload) (w : World)
  : TelemetryEvent * World :=
  let '(event, w) := send eventType data w in
  let '(copy, w) := alloc (deref (events (telemetry w)) w) w in
  let w := set_telemetryEvents copy w in
  let n := length (deref (events (telemetry w)) w) in
  let w := setStats (fun prev =>
             {| totalEvents := n;
                visibleRowsStat := visibleRowsStat prev;
                selectedRowsStat := selectedRowsStat prev |}) w in
  (event, w).

(** [onGridReady]: [rowData.length] and the column fields come from the
    component's constant state. *)
Definition onGridReady (api : GridApi) (rowCount : nat) (fields : list string)
    (w : World) : World :=
  let w := setGridApi (Some api) w in
  snd (sendTelemetryEvent "grid_initialized"
         (GridInitialized rowCount fields "ag-grid-community") w).

(** [rows.reduce((sum, r) => sum + r.price * r.quantity, 0)] *)
Definition sumValue (rows : list RowData) : JS.number :=
  fold_left (fun sum r => (sum + Row.price r * Row.quantity r)%float) rows JS.zero.

(** [rows.reduce((sum, r) => sum + r.price, 0)] *)
Definition sumPrice (rows : list RowData) : JS.number :=
  fold_left (fun sum r => (sum + Row.price r)%float) rows JS.zero.

(** [rowNode?.data] for the node displayed at index [i]. *)
Definition rowDataAt (g : Grid) (i : Z) : option RowData :=
  getDisplayedRowAtIndex g i ≫= node_data.

(** The loop [for (let i = firstRow; i <= lastRow; i++)] of
    [extractVisibleRowsData], pushing each defined [rowNode.data]. *)
Equations? collectVisible (g : Grid) (i lastRow : Z) (visibleRows : list RowData)
  : list RowData by wf (Z.to_nat (lastRow + 1 - i)) lt :=
collectVisible g i lastRow visibleRows with decide (i <= lastRow) := {
  | left _ =>
      collectVisible g (i + 1) lastRow
        (match rowDataAt g i with
         | Some d => visibleRows ++ [d]
         | None => visibleRows
         end)
  | right _ => visibleRows }.
Proof. lia. Qed.

Definition extractVisibleRowsData (w : World) : World :=
  match gridApi w with
  | None => w
  | Some api =>
      let firstRow := getFirstDisplayedRowIndex (api_grid api w) in
      let lastRow := getLastDisplayedRowIndex (api_grid api w) in
      let visibleRows := collectVisible (api_grid api w) firstRow lastRow [] in
      let w := setStats (fun prev =>
                 {| totalEvents := totalEvents prev;
                    visibleRowsStat := length visibleRows;
                    selectedRowsStat := selectedRowsStat prev |}) w in
      snd (sendTelemetryEvent "visible_rows_extracted"
             (VisibleRowsExtracted
                {| firstRowIndex := firstRow;
                   lastRowIndex := lastRow;
                   visibleRowCount := length visibleRows |}
                visibleRows
                (map Row.id visibleRows)
                (sumValue visibleRows)) w)
  end.

Definition extractSelectedRowsData (w : World) : World :=
  match gridApi w with
  | None => w
  | Some api =>
      let selectedRows := getSelectedRows (api_grid api w) in
      let w := setStats (fun prev =>
                 {| totalEvents := totalEvents prev;
                    visibleRowsStat := visibleRowsStat prev;
                    selectedRowsStat := length selectedRows |}) w in
      snd (sendTelemetryEvent "selected_rows_extracted"
             (SelectedRowsExtracted
                (length selectedRows)
                selectedRows
                (map Row.id selectedRows)
                (sumValue selectedRows)) w)
  end.

(** [gridApi.forEachNode(node => { if (node.data) allData.push(node.data) })] *)
Definition collectAll (nodes : list RowNode) : list RowData :=
  fold_left (fun allData node =>
               match node_data node with
               | Some d => allData ++ [d]
               | None => allData
               end) nodes [].

Definition extractAllGridData (w : World) : World :=
  match gridApi w with
  | None => w
  | Some api =>
      let g := api_grid api w in
      let allData := collectAll (forEachNode g) in
      let columnState := getColumnState g in
      let filterModel := getFilterModel g in
      snd (sendTelemetryEvent "full_grid_state_extracted"
             (FullGridStateExtracted
                {| totalRows := length allData;
                   displayedRows := getDisplayedRowCount g;
                   selectedRowsMeta := length (getSelectedRows g) |}
                allData
                (map (fun col =>
                        Col.mk (Col.colId col) (Col.width col) (Col.hide col)
                          (Col.sort col) (Col.sortIndex col) (Col.pinned col))
                     columnState)
                filterModel
                (getFirstDisplayedRowIndex g, getLastDisplayedRowIndex g)
                {| totalInventoryValue := sumValue allData;
                   avgPrice := (sumPrice allData / JS.of_length (length allData))%float;
                   inStockCount := length (List.filter Row.inStock allData);
                   outOfStockCount :=
                     length (List.filter (fun r => negb (Row.inStock r)) allData) |}) w)
  end.

(** [RowSelectedEvent]: the node whose selection changed and its data. *)
Record RowSelectedEvent := {
  rs_node : RowNode;
  rs_data : option RowData }.

Definition onRowSelected (event : RowSelectedEvent) (w : World) : World :=
  let w :=
    match isSelected (rs_node event), rs_data event with
    | true, Some d =>
        snd (sendTelemetryEvent "row_selected" (RowSelected (Row.id d) d "user_click") w)
    | _, _ => w
    end in
  match gridApi w with
  | Some api =>
      setStats (fun prev =>
        {| totalEvents := totalEvents prev;
           visibleRowsStat := visibleRowsStat prev;
           selectedRowsStat := length (getSelectedRows (api_grid api w)) |}) w
  | None => w
  end.

(** *** Timers of the host *)

(** [setTimeout(callback, ms)]: arms a timer and returns its handle (a
    positive integer, hence truthy). *)
Definition setTimeout (api : GridApi) (event : BodyScrollEvent) (ms : Z) (w : World)
  : positive * World :=
  let h := next_handle w in
  let t := {| handle := h; deadline := clock w + ms;
              closure_api := api; closure_event := event |} in
  (h, set_next_handle (Pos.succ h) (set_timers (timers w ++ [t]) w)).

(** [clearTimeout(handle)]: disarms the timer if it is still armed. *)
Definition clearTimeout (h : positive) (w : World) : World :=
  set_timers (List.filter (fun t => negb (Pos.eqb (handle t) h)) (timers w)) w.

(** The callback passed to [setTimeout] in [onBodyScroll]. *)
Definition scrollCallback (api : GridApi) (event : BodyScrollEvent) (w : World)
  : World :=
  let firstRow := getFirstDisplayedRowIndex (api_grid api w) in
  let lastRow := getLastDisplayedRowIndex (api_grid api w) in
  snd (sendTelemetryEvent "grid_scrolled"
         (GridScrolled (Scroll.direction event)
            {| sv_firstRow := firstRow;
               sv_lastRow := lastRow;
               sv_visibleRowCount := lastRow - firstRow + 1 |}
            (Scroll.top event, Scroll.left event)) w).

Definition onBodyScroll (event : BodyScrollEvent) (w : World) : World :=
  match gridApi w with
  | None => w
  | Some api =>
      let w := match scrollTimeoutRef w with
               | Some h => clearTimeout h w
               | None => w
               end in
      let '(h, w) := setTimeout api event 300 w in
      set_scrollTimeoutRef (Some h) w
  end.

Definition clearTelemetry (w : World) : World :=
  let w := clear w in
  let '(empty, w) := alloc [] w in
  let w := set_telemetryEvents empty w in
  setStats (fun _ => {| totalEvents := 0; visibleRowsStat := 0; selectedRowsStat := 0 |}) w.

(** *** The event loop's clock

    The armed timer with the earliest deadline (the first armed among equals). *)
Fixpoint earliest (ts : list Timer) : option Timer :=
  match ts with
  | [] => None
  | t :: ts' =>
      match earliest ts' with
      | Some t' => if deadline t' <? deadline t then Some t' else Some t
      | None => Some t
      end
  end.

(** Runs, in deadline order, the timers due at or before [target].  Each runs
    at its deadline; the callbacks arm no timer, so [fuel] = number of armed
    timers suffices. *)
Fixpoint run_due (fuel : nat) (target : Z) (w : World) : World :=
  match fuel with
  | O => w
  | S fuel' =>
      match earliest (timers w) with
      | Some t =>
          if deadline t <=? target then
            let w := clearTimeout (handle t) w in
            let w := set_clock (Z.max (clock w) (deadline t)) w in
            run_due fuel' target (scrollCallback (closure_api t) (closure_event t) w)
          else w
      | None => w
      end
  end.

(** [dt] milliseconds pass. *)
Definition advance (dt : Z) (w : World) : World :=
  let target := clock w + dt in
  set_clock target (run_due (length (timers w)) target w).

(** *** Unmounting

    React runs the cleanup functions returned by the component's effects.
    [App] declares no effect (its only hooks are [useState], [useRef] and
    [useCallback]), so it contributes no cleanup; [EventCard] and
    [TelemetryPanel] each return [() => clearTimeout(timer)] for their
    own timers. *)
Definition app_cleanups : list (World -> World) := [].

Definition unmount (w : World) : World :=
  fold_left (fun w cleanup => cleanup w) app_cleanups w.

(** *** Start of the page

    The module body runs [createTelemetryService()]; [App]'s first render
    initialises its state ([gridApi = null], [telemetryEvents = []], zeroed
    stats, [scrollTimeoutRef.current = null]). *)
Definition blank (g : Grid) (now : Z) : World :=
  {| heap := ∅; next_loc := 0%nat; console := []; clock := now; uuid_draws := 0;
     timers := []; next_handle := 1%positive; grid := g;
     telemetry := {| events := 0%nat |}; gridApi := None; telemetryEvents := 0%nat;
     stats := {| totalEvents := 0; visibleRowsStat := 0; selectedRowsStat := 0 |};
     scrollTimeoutRef := None |}.

Definition boot (g : Grid) (now : Z) : World :=
  let w := blank g now in
  let '(svc, w) := createTelemetryService w in
  let w := set_telemetry svc w in
  let '(initial, w) := alloc [] w in
  set_telemetryEvents initial w.

(** The event [send] builds in world [w]: the next identifier, the current
    clock. *)
Definition stamped (eventType : string) (data : Payload) (w : World) : TelemetryEvent :=
  Event.mk (uuid_draws w) eventType (clock w) data.

(** ** Runs of calls *)

(** A run of [send] calls, returning the events in call order. *)
Fixpoint send_all (calls : list (string * Payload)) (w : World)
  : list TelemetryEvent * World :=
  match calls with
  | [] => ([], w)
  | (eventType, data) :: calls' =>
      let '(event, w) := send eventType data w in
      let '(rest, w) := send_all calls' w in
      (event :: rest, w)
  end.

(** Calls that touch the service after a snapshot was taken. *)
Inductive LaterCall :=
| CallSend (eventType : string) (data : Payload)
| CallClear
| CallSendTelemetryEvent (eventType : string) (data : Payload)
| CallClearTelemetry.

Definition later_call (c : LaterCall) (w : World) : World :=
  match c with
  | CallSend eventType data => (send eventType data w).2
  | CallClear => clear w
  | CallSendTelemetryEvent eventType data => (sendTelemetryEvent eventType data w).2
  | CallClearTelemetry => clearTelemetry w
  end.

Definition later_calls (cs : list LaterCall) (w : World) : World :=
  fold_left (fun w c => later_call c w) cs w.

(** What happens around the scroll tracker: the grid reports a scroll, time
    passes, the grid re-renders. *)
Inductive Action :=
| Scrolls (event : BodyScrollEvent)
| Waits (dt : Z)
| GridChanges (g : Grid).

Definition perform (a : Action) (w : World) : World :=
  match a with
  | Scrolls event => onBodyScroll event w
  | Waits dt => advance dt w
  | GridChanges g => set_grid g w
  end.

Definition run (acts : list Action) (w : World) : World :=
  fold_left (fun w a => perform a w) acts w.

(** A burst after its first scroll event: each further event comes [gap]
    milliseconds after the previous one, the grid having re-rendered as [g]. *)
Definition burst_actions (rest : list (Z * Grid * BodyScrollEvent)) : list Action :=
  flat_map (fun '(gap, g, event) => [Waits gap; GridChanges g; Scrolls event]) rest.

Definition burst_duration (rest : list (Z * Grid * BodyScrollEvent)) : Z :=
  fold_right (fun '(gap, _, _) acc => gap + acc) 0 rest.

Definition burst_last (first : BodyScrollEvent) (rest : list (Z * Grid * BodyScrollEvent))
  : BodyScrollEvent :=
  List.last (map snd rest) first.

(** The scroll tracker holds at most one armed timer, the one
    [scrollTimeoutRef.current] names. *)
Definition tracker_ok (w : World) : Prop :=
  timers w = [] ∨ ∃ t, timers w = [t] ∧ scrollTimeoutRef w = Some (handle t).

(** ** The grid as the environment

    The AG Grid instance owns the selection.  When the selection changes, the
    grid calls [onRowSelected] once for every node whose selection state
    changed, and [getSelectedRows()] answers from the grid's state at the time
    of the call.  Which rows a click selects or clears is the grid's business
    (ticking a checkbox toggles one row, a plain click on a row can also clear
    the others): a report carries the state the grid is in when it calls the
    handler. *)

Definition withSelectedRows (rows : list RowData) (g : Grid) : Grid :=
  {| getFirstDisplayedRowIndex := getFirstDisplayedRowIndex g;
     getLastDisplayedRowIndex := getLastDisplayedRowIndex g;
     getDisplayedRowAtIndex := getDisplayedRowAtIndex g;
     getSelectedRows := rows;
     forEachNode := forEachNode g;
     getColumnState := getColumnState g;
     getFilterModel := getFilterModel g;
     getDisplayedRowCount := getDisplayedRowCount g |}.

(** The event the grid passes when row [r] became selected, and when it
    stopped being selected. *)
Definition selectedEvent (r : RowData) : RowSelectedEvent :=
  {| rs_node := {| node_data := Some r; isSelected := true |}; rs_data := Some r |}.

Definition deselectedEvent (r : RowData) : RowSelectedEvent :=
  {| rs_node := {| node_data := Some r; isSelected := false |}; rs_data := Some r |}.

(** The grid, now in state [g], reports a selection change. *)
Definition selectionReport (g : Grid) (event : RowSelectedEvent) (w : World) : World :=
  onRowSelected event (set_grid g w).

Definition selectionReports (reports : list (Grid * RowSelectedEvent)) (w : World)
  : World :=
  fold_left (fun w '(g, event) => selectionReport g event w) reports w.

(** A grid over [rows], all of them displayed, rendering indices
    [firstRow..lastRow]. *)
Definition gridShowing (rows : list RowData) (firstRow lastRow : Z) : Grid :=
  {| getFirstDisplayedRowIndex := firstRow;
     getLastDisplayedRowIndex := lastRow;
     getDisplayedRowAtIndex := fun i =>
       if i <? 0 then None
       else (fun r => {| node_data := Some r; isSelected := false |})
              <$> rows !! Z.to_nat i;
     getSelectedRows := [];
     forEachNode := map (fun r => {| node_data := Some r; isSelected := false |}) rows;
     getColumnState := [];
     getFilterModel := [];
     getDisplayedRowCount := length rows |}.

(** ** Sample data ([generateSampleData]) *)

Definition inch : string := String (Ascii.ascii_of_nat 34) EmptyString.

Definition generateSampleData : list RowData :=
  [ Row.mk 1 ("MacBook Pro 16" +:+ inch) "Electronics" 2499 12 true "2024-01-15";
    Row.mk 2 "Logitech MX Master 3" "Electronics" 99 45 true "2024-01-14";
    Row.mk 3 "Mechanical Keyboard" "Electronics" 149 28 true "2024-01-13";
    Row.mk 4 ("Dell UltraSharp 27" +:+ inch) "Electronics" 549 8 true "2024-01-12";
    Row.mk 5 "Herman Miller Aeron" "Furniture" 1395 5 false "2024-01-11";
    Row.mk 6 "Standing Desk Pro" "Furniture" 799 15 true "2024-01-10";
    Row.mk 7 "Moleskine Notebook" "Stationery" 25 120 true "2024-01-09";
    Row.mk 8 "Premium Pen Set" "Stationery" 45 67 true "2024-01-08";
    Row.mk 9 "USB-C Hub 7-in-1" "Electronics" 79 89 true "2024-01-07";
    Row.mk 10 "Logitech C920 Webcam" "Electronics" 69 34 false "2024-01-06";
    Row.mk 11 "AirPods Pro 2" "Electronics" 249 56 true "2024-01-05";
    Row.mk 12 ("iPad Pro 12.9" +:+ inch) "Electronics" 1099 19 true "2024-01-04";
    Row.mk 13 "Desk Lamp LED" "Furniture" 89 42 true "2024-01-03";
    Row.mk 14 "Filing Cabinet" "Furniture" 199 11 false "2024-01-02";
    Row.mk 15 "Whiteboard 48x36" "Office" 129 7 true "2024-01-01" ]%float.

Definition columnFields : list string :=
  ["id"; "product"; "category"; "price"; "quantity"; "inStock"; "lastUpdated"].

(** The page once the grid is ready, rendering the sample rows [firstRow..lastRow]. *)
Definition ready (firstRow lastRow : Z) : World :=
  onGridReady TheGrid (length generateSampleData) columnFields
    (boot (gridShowing generateSampleData firstRow lastRow) 0).

(** The sum of price x quantity over [rows], added up in list order. *)
Definition sum_price_times_quantity (rows : list RowData) : JS.number :=
  fold_left (fun acc x => (acc + x)%float)
    (map (fun r => (Row.price r * Row.quantity r)%float) rows) 0%float.

(** Two of the sample rows. *)
Definition keyboard : RowData :=
  Row.mk 3 "Mechanical Keyboard" "Electronics" 149%float 28%float true "2024-01-13".
Definition notebook : RowData :=
  Row.mk 7 "Moleskine Notebook" "Stationery" 25%float 120%float true "2024-01-09".

(** [snap] is an allocated array other than the service's own, itself allocated. *)
Definition separate_from_buffer (snap : loc) (w : World) : Prop :=
  snap ≠ events (telemetry w)
  ∧ (snap < next_loc w)%nat
  ∧ (events (telemetry w) < next_loc w)%nat.

(** The scroll tracker is pending on [event]: one timer armed 300 ms ahead
    of the current clock, nothing emitted since world [w0]. *)
Definition armed (w0 w : World) (api : GridApi) (event : BodyScrollEvent) : Prop :=
  gridApi w = Some api
  ∧ console w = console w0
  ∧ uuid_draws w = uuid_draws w0
  ∧ ∃ h, timers w = [{| handle := h; deadline := clock w + 300;
                        closure_api := api; closure_event := event |}]
         ∧ scrollTimeoutRef w = Some h.

(** The page over an empty grid, whose viewport the grid reports as [-1..-1]. *)
Definition readyEmpty : World :=
  onGridReady TheGrid 0 columnFields (boot (gridShowing [] (-1) (-1)) 0).

(** The sample row displayed at index [i]. *)
Definition sampleRowAt (i : Z) : RowData :=
  nth (Z.to_nat i) generateSampleData keyboard.

(** ** The page as a whole

    Everything that can happen to the mounted page: the grid reports it is
    ready, a button of the telemetry panel is clicked, the grid reports a
    selection change or a scroll, time passes, the grid re-renders. *)
Inductive Happening :=
| GridReady (api : GridApi) (rowCount : nat) (fields : list string)
| SendVisibleClicked
| SendSelectedClicked
| SendFullClicked
| RowSelectionChanged (event : RowSelectedEvent)
| BodyScrolled (event : BodyScrollEvent)
| TimePasses (dt : Z)
| ClearClicked
| GridRerenders (g : Grid).

Definition happen (h : Happening) (w : World) : World :=
  match h with
  | GridReady api rowCount fields => onGridReady api rowCount fields w
  | SendVisibleClicked => extractVisibleRowsData w
  | SendSelectedClicked => extractSelectedRowsData w
  | SendFullClicked => extractAllGridData w
  | RowSelectionChanged event => onRowSelected event w
  | BodyScrolled event => onBodyScroll event w
  | TimePasses dt => advance dt w
  | ClearClicked => clearTelemetry w
  | GridRerenders g => set_grid g w
  end.

Definition happenings (hs : list Happening) (w : World) : World :=
  fold_left (fun w h => happen h w) hs w.

(** The list the telemetry panel is given ([telemetryEvents] of [App]). *)
Definition shownEvents (w : World) : list TelemetryEvent :=
  deref (telemetryEvents w) w.

(** The panel shows the buffer: the list in React state is an array of its own
    with the buffer's contents, the event counter is the buffer's length, and
    the buffer is within its bound. *)
Definition page_ok (w : World) : Prop :=
  separate_from_buffer (telemetryEvents w) w
  ∧ shownEvents w = buffer w
  ∧ totalEvents (stats w) = length (buffer w)
  ∧ (length (buffer w) ≤ 50)%nat.

(** The event types [App] passes to [sendTelemetryEvent]. *)
Definition appEventTypes : list string :=
  ["grid_initialized"; "visible_rows_extracted"; "selected_rows_extracted";
   "full_grid_state_extracted"; "row_selected"; "grid_scrolled"].

(** ** [EventCard]: colours by event type *)

(** [colors[type]] on an object literal: an own key gives its string, a name
    that [Object.prototype] defines gives that inherited member (truthy, not a
    string), any other name gives [undefined]. *)
Inductive Property :=
| OwnValue (s : string)
| InheritedMember
| Undefined.

Definition objectPrototypeNames : list string :=
  ["constructor"; "__proto__"; "hasOwnProperty"; "isPrototypeOf";
   "propertyIsEnumerable"; "toLocaleString"; "toString"; "valueOf";
   "__defineGetter__"; "__defineSetter__"; "__lookupGetter__"; "__lookupSetter__"].

Definition getProperty (obj : gmap string string) (key : string) : Property :=
  match obj !! key with
  | Some s => OwnValue s
  | None => if bool_decide (key ∈ objectPrototypeNames) then InheritedMember else Undefined
  end.

(** [value || fallback]: every class name and colour of the tables is a
    non-empty string, hence truthy; so is an inherited member. *)
Definition orElse (p : Property) (fallback : string) : Property :=
  match p with
  | OwnValue s => if bool_decide (s = EmptyString) then OwnValue fallback else OwnValue s
  | InheritedMember => InheritedMember
  | Undefined => OwnValue fallback
  end.

Definition eventColors : gmap string string :=
  list_to_map
    [("grid_initialized", "bg-emerald-500");
     ("visible_rows_extracted", "bg-blue-500");
     ("selected_rows_extracted", "bg-purple-500");
     ("full_grid_state_extracted", "bg-amber-500");
     ("row_selected", "bg-indigo-500");
     ("grid_scrolled", "bg-slate-500")].

Definition getEventColor (type : string) : Property :=
  orElse (getProperty eventColors type) "bg-gray-500".

Definition borderColors : gmap string string :=
  list_to_map
    [("grid_initialized", "#10b981");
     ("visible_rows_extracted", "#3b82f6");
     ("selected_rows_extracted", "#a855f7");
     ("full_grid_state_extracted", "#f59e0b");
     ("row_selected", "#6366f1");
     ("grid_scrolled", "#64748b")].

Definition getBorderColor (type : string) : Property :=
  orElse (getProperty borderColors type) "#6b7280".

(** [w'] is [w] with further events logged, all of the types [App] emits. *)
Definition logs_app_events (w w' : World) : Prop :=
  ∃ evs, console w' = console w ++ evs
         ∧ Forall (fun e => Event.eventType e ∈ appEventTypes) evs.

(** ** Component timers

    [TelemetryPanel] and [EventCard] each arm a 2500 ms timer inside an effect
    and return [() => clearTimeout(timer)] as the effect's cleanup.  React runs
    the cleanup of the previous run of an effect before running it again. *)
Module Timeouts.
(** Armed timers of one component: handle and absolute deadline. *)
Definition table := list (positive * Z).

Definition disarm (h : positive) (t : table) : table :=
  List.filter (fun x => negb (Pos.eqb (fst x) h)) t.

Definition due (now : Z) (t : table) : table :=
  List.filter (fun x => snd x <=? now) t.

Definition pending (now : Z) (t : table) : table :=
  List.filter (fun x => negb (snd x <=? now)) t.
End Timeouts.

(** *** [TelemetryPanel] *)

Record Panel := {
  newestEventId : option nat;
  prevEventsLengthRef : nat;
  panelTimers : Timeouts.table;       (* each runs [setNewestEventId(null)] *)
  panelNextHandle : positive;
  panelCleanup : option positive      (* the timer the last effect run asked to clear *) }.

(** The panel as first rendered. *)
Definition panelMounted : Panel :=
  {| newestEventId := None; prevEventsLengthRef := 0; panelTimers := [];
     panelNextHandle := 1%positive; panelCleanup := None |}.

(** One run of the effect on [telemetryEvents], at time [now]: the previous
    cleanup first, then the body. *)
Definition panelEffect (telemetryEvents : list TelemetryEvent) (now : Z) (p : Panel)
  : Panel :=
  let timers := match panelCleanup p with
                | Some h => Timeouts.disarm h (panelTimers p)
                | None => panelTimers p
                end in
  if ((prevEventsLengthRef p <? length telemetryEvents)%nat
      && (0 <? length telemetryEvents)%nat)%bool
  then
    let timer := panelNextHandle p in
    {| newestEventId :=
         match telemetryEvents with
         | e :: _ => Some (Event.id e)
         | [] => newestEventId p
         end;
       prevEventsLengthRef := length telemetryEvents;
       panelTimers := timers ++ [(timer, now + 2500)];
       panelNextHandle := Pos.succ timer;
       panelCleanup := Some timer |}
  else
    {| newestEventId := newestEventId p;
       prevEventsLengthRef :=
         if (length telemetryEvents =? 0)%nat then 0%nat else prevEventsLengthRef p;
       panelTimers := timers;
       panelNextHandle := panelNextHandle p;
       panelCleanup := None |}.

(** The clock reaches [now]: the due timers run and are gone. *)
Definition panelTick (now : Z) (p : Panel) : Panel :=
  match Timeouts.due now (panelTimers p) with
  | [] => p
  | _ :: _ =>
      {| newestEventId := None;
         prevEventsLengthRef := prevEventsLengthRef p;
         panelTimers := Timeouts.pending now (panelTimers p);
         panelNextHandle := panelNextHandle p;
         panelCleanup := panelCleanup p |}
  end.

(** The only timer the panel can have armed is the one its cleanup names. *)
Definition panel_ok (p : Panel) : Prop :=
  panelTimers p = []
  ∨ ∃ h d, panelTimers p = [(h, d)] ∧ panelCleanup p = Some h.

(** [isNew={event.id === newestEventId}] *)
Definition isNew (p : Panel) (event : TelemetryEvent) : bool :=
  bool_decide (newestEventId p = Some (Event.id event)).

(** *** [EventCard] *)

Record Card := {
  showAnimation : bool;
  cardTimers : Timeouts.table;        (* each runs [setShowAnimation(false)] *)
  cardNextHandle : positive;
  cardCleanup : option positive }.

Definition cardMounted : Card :=
  {| showAnimation := false; cardTimers := []; cardNextHandle := 1%positive;
     cardCleanup := None |}.

(** One run of the effect on [isNew] (at mount and whenever [isNew] changes). *)
Definition cardEffect (isNew : bool) (now : Z) (c : Card) : Card :=
  let timers := match cardCleanup c with
                | Some h => Timeouts.disarm h (cardTimers c)
                | None => cardTimers c
                end in
  if isNew then
    let timer := cardNextHandle c in
    {| showAnimation := true;
       cardTimers := timers ++ [(timer, now + 2500)];
       cardNextHandle := Pos.succ timer;
       cardCleanup := Some timer |}
  else
    {| showAnimation := showAnimation c;
       cardTimers := timers;
       cardNextHandle := cardNextHandle c;
       cardCleanup := None |}.

Definition cardTick (now : Z) (c : Card) : Card :=
  match Timeouts.due now (cardTimers c) with
  | [] => c
  | _ :: _ =>
      {| showAnimation := false;
         cardTimers := Timeouts.pending now (cardTimers c);
         cardNextHandle := cardNextHandle c;
         cardCleanup := cardCleanup c |}
  end.

Definition card_ok (c : Card) : Prop :=
  cardTimers c = []
  ∨ ∃ h d, cardTimers c = [(h, d)] ∧ cardCleanup c = Some h.

(** The sample page after 49 clicks on Send Selected: with the
    [grid_initialized] event the buffer holds 50 events. *)
Definition fullPage : World :=
  happenings (replicate 49 SendSelectedClicked) (ready 0 14).

(** A panel that has rendered 50 events and still flags event 49. *)
Definition panelAtFifty : Panel :=
  {| newestEventId := Some 49%nat; prevEventsLengthRef := 50; panelTimers := [];
     panelNextHandle := 51%positive; panelCleanup := None |}.

(** ** [highlightCode]

    A JS string is its sequence of UTF-16 code units.  The regular expression
    of [highlightCode] is embedded alternative by alternative; [exec] is the
    search of a global ([g]) regular expression from [lastIndex]. *)
Module Highlight.

Definition jsString := list N.

Definition units (s : string) : jsString :=
  map Ascii.N_of_ascii (String.list_ascii_of_string s).

(** [\d] *)
Definition isDigit (c : N) : bool := ((48 <=? c) && (c <=? 57))%N.

(** [\w]: letters, digits and the underscore *)
Definition isWord (c : N) : bool :=
  (isDigit c || ((65 <=? c) && (c <=? 90)) || ((97 <=? c) && (c <=? 122)) || (c =? 95))%N.

(** The line terminators, which [.] does not match. *)
Definition isLineTerminator (c : N) : bool :=
  ((c =? 10) || (c =? 13) || (c =? 8232) || (c =? 8233))%N.

(** What [trim] strips: white space and line terminators. *)
Definition isWhiteSpace (c : N) : bool :=
  (isLineTerminator c
   || (c =? 9) || (c =? 11) || (c =? 12) || (c =? 32) || (c =? 160) || (c =? 5760)
   || ((8192 <=? c) && (c <=? 8202)) || (c =? 8239) || (c =? 8287) || (c =? 12288)
   || (c =? 65279))%N.

Fixpoint takeWhile (p : N -> bool) (s : jsString) : jsString :=
  match s with
  | c :: s' => if p c then c :: takeWhile p s' else []
  | [] => []
  end.

Fixpoint dropWhile (p : N -> bool) (s : jsString) : jsString :=
  match s with
  | c :: s' => if p c then dropWhile p s' else s
  | [] => []
  end.

(** [s.trim()] *)
Definition trim (s : jsString) : jsString :=
  rev (dropWhile isWhiteSpace (rev (dropWhile isWhiteSpace s))).

Fixpoint startsWith (prefix s : jsString) : bool :=
  match prefix, s with
  | [], _ => true
  | p :: prefix', c :: s' => (p =? c)%N && startsWith prefix' s'
  | _ :: _, [] => false
  end.

(** [s.slice(from, to)] for [from <= to] *)
Definition slice (s : jsString) (from to : nat) : jsString :=
  take (to - from) (drop from s).

(** The capture group that took part in a match: [match[1]] to [match[5]]. *)
Inductive Group := Keyword | TypeName | Comment | StringLit | Number.

Definition keywords : list jsString :=
  map units ["const"; "let"; "var"; "function"; "return"; "if"; "for"; "await";
             "async"; "useCallback"; "useRef"; "interface"; "type"].

Definition typeNames : list jsString :=
  map units ["string"; "number"; "boolean"; "RowData"; "TelemetryEvent"; "GridApi";
             "null"].

(** [\b] between the unit before and the unit after a position (none at
    either end of the input). *)
Definition wordBoundary (before after : option N) : bool :=
  xorb (from_option isWord false before) (from_option isWord false after).

(** [\b(?:w1|w2|...)\b] at a position: the first alternative that is a prefix
    of the rest of the input and is followed by a word boundary. *)
Definition matchWords (words : list jsString) (prev : option N) (rest : jsString)
  : option nat :=
  if wordBoundary prev (head rest) then
    length <$>
      List.find (fun w => startsWith w rest
                          && wordBoundary (last w) (rest !! length w)) words
  else None.

(** [\/\/.*$]: two slashes, then [.*] must reach the end of the input, which it
    does when no line terminator follows. *)
Definition matchComment (rest : jsString) : option nat :=
  if startsWith (units "//") rest && forallb (fun c => negb (isLineTerminator c)) (drop 2 rest)
  then Some (length rest) else None.

(** After an opening quote, the lazy [.*?] followed by the closing quote: the
    number of units up to and including the first closing quote, provided no
    line terminator comes before it. *)
Fixpoint closeQuote (quote : N) (s : jsString) : option nat :=
  match s with
  | [] => None
  | c :: s' =>
      if (c =? quote)%N then Some 1%nat
      else if isLineTerminator c then None
      else S <$> closeQuote quote s'
  end.

Definition matchQuoted (quote : N) (rest : jsString) : option nat :=
  match rest with
  | c :: rest' => if (c =? quote)%N then S <$> closeQuote quote rest' else None
  | [] => None
  end.

(** ['.*?'|".*?"] *)
Definition matchString (rest : jsString) : option nat :=
  match matchQuoted 39 rest with
  | Some n => Some n
  | None => matchQuoted 34 rest
  end.

(** [\d+] *)
Definition matchNumber (rest : jsString) : option nat :=
  match takeWhile isDigit rest with
  | [] => None
  | digits => Some (length digits)
  end.

(** The five alternatives in order, at one position: length of the match and
    the group that captured it. *)
Definition matchAt (prev : option N) (rest : jsString) : option (nat * Group) :=
  match matchWords keywords prev rest with
  | Some n => Some (n, Keyword)
  | None =>
  match matchWords typeNames prev rest with
  | Some n => Some (n, TypeName)
  | None =>
  match matchComment rest with
  | Some n => Some (n, Comment)
  | None =>
  match matchString rest with
  | Some n => Some (n, StringLit)
  | None =>
  match matchNumber rest with
  | Some n => Some (n, Number)
  | None => None
  end end end end end.

Record Match := {
  index : nat;            (* match.index *)
  text : jsString;        (* match[0] *)
  group : Group }.

(** The leftmost position at or after [i] where the expression matches. *)
Fixpoint search (prev : option N) (rest : jsString) (i : nat) : option Match :=
  match matchAt prev rest with
  | Some (n, g) => Some {| index := i; text := take n rest; group := g |}
  | None =>
      match rest with
      | [] => None
      | c :: rest' => search (Some c) rest' (S i)
      end
  end.

(** [regex.exec(line)] with [regex.lastIndex = lastIndex]; a match leaves
    [lastIndex] at its end. *)
Definition exec (line : jsString) (lastIndex : nat) : option Match :=
  if (length line <? lastIndex)%nat then None
  else search (last (take lastIndex line)) (drop lastIndex line) lastIndex.

(** What [highlightCode] puts in [parts]: a string or a [span]. *)
Inductive Part :=
| Text (s : jsString)
| Span (className : string) (s : jsString).

Definition className (g : Group) : string :=
  match g with
  | Keyword => "text-purple-400"
  | TypeName => "text-cyan-400"
  | Comment => "text-slate-500"
  | StringLit => "text-emerald-400"
  | Number => "text-amber-400"
  end.

(** The [while ((match = regex.exec(line)) !== null)] loop.  Every match is at
    least one unit long, so the loop body runs at most [length line] times. *)
Fixpoint loop (fuel : nat) (line : jsString) (lastIndex currentIndex : nat)
    (parts : list Part) : list Part * nat :=
  match fuel with
  | O => (parts, currentIndex)
  | S fuel' =>
      match exec line lastIndex with
      | None => (parts, currentIndex)
      | Some m =>
          let parts :=
            if (currentIndex <? index m)%nat
            then parts ++ [Text (slice line currentIndex (index m))]
            else parts in
          let parts := parts ++ [Span (className (group m)) (text m)] in
          let stop := (index m + length (text m))%nat in
          loop fuel' line stop stop parts
      end
  end.

(** What [highlightCode] returns: the comment [span], the fragment of parts,
    or the line itself. *)
Inductive Rendered :=
| CommentLine (line : jsString)
| Fragment (parts : list Part)
| Plain (line : jsString).

Definition highlightCode (line : jsString) : Rendered :=
  if startsWith (units "//") (trim line) then CommentLine line
  else
    let '(parts, currentIndex) := loop (S (length line)) line 0 0 [] in
    let parts :=
      if (currentIndex <? length line)%nat
      then parts ++ [Text (drop currentIndex line)]
      else parts in
    match parts with
    | [] => Plain line
    | _ :: _ => Fragment parts
    end.

(** The text a part and a rendering display. *)
Definition partText (p : Part) : jsString :=
  match p with
  | Text s => s
  | Span _ s => s
  end.

Definition renderedText (r : Rendered) : jsString :=
  match r with
  | CommentLine line => line
  | Fragment parts => concat (map partText parts)
  | Plain line => line
  end.

Definition renderedParts (r : Rendered) : list Part :=
  match r with
  | CommentLine line => [Span "text-slate-500" line]
  | Fragment parts => parts
  | Plain line => [Text line]
  end.

(** What a [span] of each colour holds. *)
Definition spanHolds (p : Part) : Prop :=
  match p with
  | Text s => s ≠ []
  | Span c s =>
      (c = "text-purple-400" ∧ s ∈ keywords)
      ∨ (c = "text-cyan-400" ∧ s ∈ typeNames)
      ∨ (c = "text-slate-500" ∧ startsWith (units "//") s = true)
      ∨ (c = "text-emerald-400"
         ∧ ∃ quote body, (quote = 39%N ∨ quote = 34%N)
                         ∧ s = quote :: body ++ [quote] ∧ (quote ∉ body))
      ∨ (c = "text-amber-400" ∧ s ≠ [] ∧ forallb isDigit s = true)
  end.

End Highlight.

(** A ready page whose grid has been emptied from outside the page: [App]
    itself always gives the grid its 15 rows. *)
Definition emptiedPage : World :=
  set_grid (gridShowing [] 0 (-1)) (ready 0 14).

(** *** What [highlightCode] should produce: the leftmost matches in order

    [matchAtIndex line i] is the expression tried at index [i] of [line]. *)
Definition matchAtIndex (line : Highlight.jsString) (i : nat)
  : option (nat * Highlight.Group) :=
  Highlight.matchAt (last (take i line)) (drop i line).

(** A part standing at index [i]: a span is the match that starts at [i], in
    the colour of its group; a string is not empty, holds no index where the
    expression matches, and ends where a match starts or where the line
    ends. *)
Definition partAt (line : Highlight.jsString) (i : nat) (p : Highlight.Part) : Prop :=
  match p with
  | Highlight.Span c s =>
      s = take (length s) (drop i line)
      ∧ ∃ g, matchAtIndex line i = Some (length s, g) ∧ c = Highlight.className g
  | Highlight.Text s =>
      s = take (length s) (drop i line)
      ∧ s ≠ []
      ∧ (∀ j, (i ≤ j < i + length s)%nat → matchAtIndex line j = None)
      ∧ ((i + length s)%nat = length line
         ∨ matchAtIndex line (i + length s) ≠ None)
  end.

(** [parts] stand one after the other from index [i] to index [stop]. *)
Fixpoint partsFrom (line : Highlight.jsString) (i : nat) (parts : list Highlight.Part)
    (stop : nat) : Prop :=
  match parts with
  | [] => i = stop
  | p :: parts' =>
      partAt line i p
      ∧ partsFrom line (i + length (Highlight.partText p)) parts' stop
  end.

(** * Properties *)

(** ** Heap and service lemmas *)

Lemma deref_store_eq l xs w : deref l (store l xs w) = xs.
Proof. unfold deref, store; simpl. by rewrite lookup_insert_eq. Qed.

Lemma pop_full {A} (x : A) (xs : list A) (n : nat) :
  length xs = n → pop (unshift x xs) = take n (x :: xs).
Proof.
  unfold pop, unshift. revert x n. induction xs as [|y ys IH]; intros x n Hn.
  - simpl in Hn; subst; reflexivity.
  - simpl in Hn. destruct n as [|n]; [discriminate|].
    change (removelast (x :: y :: ys)) with (x :: removelast (y :: ys)).
    rewrite (IH y n) by lia. reflexivity.
Qed.

(** The buffer after one [send], as the code computes it. *)
Lemma send_buffer_step eventType data w :
  buffer (send eventType data w).2 =
    let b := unshift (send eventType data w).1 (buffer w) in
    if (50 <? length b)%nat then pop b else b.
Proof.
  unfold send, buffer, modify; cbn [fst snd].
  set (arr := events (telemetry w)).
  set (e := Event.mk _ _ _ _).
  change (events (telemetry (set_uuid_draws _ w))) with arr.
  change (deref arr (set_uuid_draws _ w)) with (deref arr w).
  cbv zeta.
  change (telemetry (set_console _ ?w')) with (telemetry w').
  change (deref ?l (set_console _ ?w')) with (deref l w').
  change (events (telemetry (store arr _ _))) with arr.
  by rewrite !deref_store_eq.
Qed.

(** One [send] against a buffer within the bound. *)
Lemma send_buffer eventType data w :
  (length (buffer w) ≤ 50)%nat →
  buffer (send eventType data w).2 = take 50 ((send eventType data w).1 :: buffer w).
Proof.
  intros Hlen. rewrite send_buffer_step. cbv zeta.
  set (e := (send eventType data w).1).
  destruct (Nat.ltb_spec 50 (length (unshift e (buffer w)))) as [Hgt|Hle].
  - apply pop_full. unfold unshift in Hgt; simpl in Hgt. lia.
  - unfold unshift in *. simpl in Hle. rewrite take_ge; [done | simpl; lia].
Qed.

Lemma send_event eventType data w :
  (send eventType data w).1 = Event.mk (uuid_draws w) eventType (clock w) data.
Proof. reflexivity. Qed.

Lemma send_all_cons eventType data calls w :
  send_all ((eventType, data) :: calls) w =
    ((send eventType data w).1 :: (send_all calls (send eventType data w).2).1,
     (send_all calls (send eventType data w).2).2).
Proof.
  cbn [send_all]. destruct (send eventType data w) as [e w1]; cbn [fst snd].
  by destruct (send_all calls w1).
Qed.

Lemma send_all_buffer calls : ∀ w,
  (length (buffer w) ≤ 50)%nat →
  buffer (send_all calls w).2 = take 50 (reverse (send_all calls w).1 ++ buffer w).
Proof.
  induction calls as [|[ty d] calls IH]; intros w Hlen.
  - cbn [send_all fst snd reverse]. by rewrite take_ge.
  - rewrite send_all_cons; cbn [fst snd].
    pose proof (send_buffer ty d w Hlen) as Hb.
    set (e := (send ty d w).1) in *. set (w1 := (send ty d w).2) in *.
    assert (Hlen1 : (length (buffer w1) ≤ 50)%nat).
    { rewrite Hb, length_take. lia. }
    rewrite (IH w1 Hlen1), Hb, reverse_cons, <- app_assoc.
    change ([e] ++ buffer w) with (e :: buffer w).
    set (r := reverse (send_all calls w1).1).
    destruct (decide (length r < 50)%nat) as [Hr|Hr].
    + rewrite !take_app_ge by lia.
      f_equal. rewrite take_take. f_equal. lia.
    + rewrite !take_app_le by lia. done.
Qed.

Lemma send_all_events calls : ∀ w,
  map (λ e, (Event.eventType e, Event.data e)) (send_all calls w).1 = calls
  ∧ length (send_all calls w).1 = length calls.
Proof.
  induction calls as [|[ty d] calls IH]; intros w; [done|].
  rewrite send_all_cons; cbn [fst snd map length].
  destruct (IH (send ty d w).2) as [IH1 IH2]. rewrite IH1, IH2.
  by rewrite send_event.
Qed.

(** C1. For every run of [send] calls on a service whose buffer starts empty,
    after each call (every prefix of the run) the buffer holds at most 50
    events, namely the most recent ones newest first; once more than 50 sends
    have occurred it holds exactly 50, its [k]-th entry being the event of the
    [k]-th most recent call. *)
Theorem send_keeps_last_50 (w : World) (calls : list (string * Payload)) (n : nat) :
  buffer w = [] →
  (n ≤ length calls)%nat →
  let sent := (send_all (take n calls) w).1 in
  let w' := (send_all (take n calls) w).2 in
  map (λ e, (Event.eventType e, Event.data e)) sent = take n calls
  ∧ (length (buffer w') ≤ 50)%nat
  ∧ buffer w' = take 50 (reverse sent)
  ∧ ((50 < n)%nat →
       length (buffer w') = 50%nat
       ∧ ∀ k, (k < 50)%nat → buffer w' !! k = sent !! (n - 1 - k)%nat).
Proof.
  intros Hempty Hn sent w'.
  destruct (send_all_events (take n calls) w) as [Hev Hlen].
  fold sent in Hev, Hlen. rewrite length_take in Hlen.
  assert (Hsent : length sent = n) by lia.
  assert (Hbuf : buffer w' = take 50 (reverse sent)).
  { unfold w', sent. rewrite send_all_buffer by (rewrite Hempty; simpl; lia).
    by rewrite Hempty, app_nil_r. }
  split; [done|]. split; [rewrite Hbuf, length_take; lia|].
  split; [done|]. intros Hgt. split.
  - rewrite Hbuf, length_take, length_reverse. lia.
  - intros k Hk. rewrite Hbuf, lookup_take_lt by lia.
    rewrite reverse_lookup by lia. f_equal. lia.
Qed.

Lemma send_keeps_last_50_witness :
  let calls := replicate 51 ("row_selected", RowSelected 3 keyboard "user_click") in
  let w := boot (gridShowing generateSampleData 0 14) 0 in
  buffer w = []
  ∧ (51 ≤ length calls)%nat
  ∧ length (buffer (send_all (take 51 calls) w).2) = 50%nat.
Proof.
  intros calls w.
  assert (Hempty : buffer w = []) by reflexivity.
  assert (Hn : (51 ≤ length calls)%nat) by (vm_compute; lia).
  split; [exact Hempty|]. split; [exact Hn|].
  refine (proj1 (proj2 (proj2 (proj2 (send_keeps_last_50 w calls 51 Hempty Hn))) _)).
  lia.
Defined.

(** ** What [sendTelemetryEvent] changes

    [console.log] runs once per [send] and nowhere else, so the console trace
    is the log of emitted events. *)

Lemma sendTelemetryEvent_console eventType data w :
  console (sendTelemetryEvent eventType data w).2
  = console w ++ [stamped eventType data w].
Proof. reflexivity. Qed.

Lemma sendTelemetryEvent_frame eventType data w :
  let w' := (sendTelemetryEvent eventType data w).2 in
  grid w' = grid w ∧ gridApi w' = gridApi w ∧ timers w' = timers w
  ∧ clock w' = clock w ∧ scrollTimeoutRef w' = scrollTimeoutRef w
  ∧ next_handle w' = next_handle w ∧ telemetry w' = telemetry w
  ∧ uuid_draws w' = S (uuid_draws w)
  ∧ visibleRowsStat (stats w') = visibleRowsStat (stats w)
  ∧ selectedRowsStat (stats w') = selectedRowsStat (stats w).
Proof. cbv zeta. repeat split; reflexivity. Qed.

(** ** The viewport loop *)

Lemma collectVisible_range g i lastRow visibleRows :
  collectVisible g i lastRow visibleRows
  = visibleRows ++ omap (rowDataAt g) (seqZ i (lastRow + 1 - i)).
Proof.
  funelim (collectVisible g i lastRow visibleRows).
  - rewrite H. rewrite (seqZ_cons i) by lia.
    replace (Z.pred (lastRow + 1 - i)) with (lastRow + 1 - (i + 1)) by lia.
    replace (Z.succ i) with (i + 1) by lia.
    cbn [omap list_omap]. destruct (rowDataAt g i); [|done].
    by rewrite <- app_assoc.
  - rewrite seqZ_nil by lia. by rewrite app_nil_r.
Qed.

Lemma omap_all_some {A B} (f : A → option B) (h : A → B) (l : list A) :
  (∀ x, x ∈ l → f x = Some (h x)) → omap f l = map h l.
Proof.
  induction l as [|x l IH]; intros Hall; [done|].
  cbn [omap list_omap map]. rewrite (Hall x) by left.
  f_equal. apply IH. intros y Hy. apply Hall. by right.
Qed.

Lemma omap_all_none {A B} (f : A → option B) (l : list A) :
  (∀ x, x ∈ l → f x = None) → omap f l = [].
Proof.
  induction l as [|x l IH]; intros Hall; [done|].
  cbn [omap list_omap]. rewrite (Hall x) by left.
  apply IH. intros y Hy. apply Hall. by right.
Qed.

Lemma extractVisibleRowsData_console w api :
  gridApi w = Some api →
  let g := grid w in
  let visibleRows :=
    omap (rowDataAt g)
      (seqZ (getFirstDisplayedRowIndex g)
            (getLastDisplayedRowIndex g + 1 - getFirstDisplayedRowIndex g)) in
  console (extractVisibleRowsData w)
  = console w ++
      [stamped "visible_rows_extracted"
         (VisibleRowsExtracted
            {| firstRowIndex := getFirstDisplayedRowIndex g;
               lastRowIndex := getLastDisplayedRowIndex g;
               visibleRowCount := length visibleRows |}
            visibleRows (map Row.id visibleRows) (sumValue visibleRows)) w].
Proof.
  intros Hapi g visibleRows. unfold extractVisibleRowsData. rewrite Hapi.
  cbv zeta. rewrite sendTelemetryEvent_console. unfold api_grid.
  rewrite collectVisible_range. reflexivity.
Qed.

(** ** Viewport extractor *)

(** C7. With the grid available and a row with data at every index of the
    displayed inclusive range [first..last], the viewport extractor emits one
    [visible_rows_extracted] event listing exactly the rows at indices
    [first..last] in index order, with their keys in the same order and the
    price x quantity total; for the range [3..7] that is 5 rows with the keys
    of rows 3 to 7, and when [first > last] the list is empty and the total
    is 0. *)
Theorem visible_rows_are_displayed_range (w : World) (api : GridApi) (rows : Z → RowData) :
  gridApi w = Some api →
  let first := getFirstDisplayedRowIndex (grid w) in
  let last := getLastDisplayedRowIndex (grid w) in
  (∀ i, first ≤ i ≤ last → rowDataAt (grid w) i = Some (rows i)) →
  let visibleRows := map rows (seqZ first (last - first + 1)) in
  console (extractVisibleRowsData w)
  = console w ++
      [stamped "visible_rows_extracted"
         (VisibleRowsExtracted
            {| firstRowIndex := first; lastRowIndex := last;
               visibleRowCount := length visibleRows |}
            visibleRows (map Row.id visibleRows) (sumValue visibleRows)) w]
  ∧ (first = 3 → last = 7 →
       visibleRows = [rows 3; rows 4; rows 5; rows 6; rows 7]
       ∧ length visibleRows = 5%nat
       ∧ map Row.id visibleRows
         = [Row.id (rows 3); Row.id (rows 4); Row.id (rows 5); Row.id (rows 6);
            Row.id (rows 7)])
  ∧ (first > last → visibleRows = [] ∧ sumValue visibleRows = 0%float).
Proof.
  intros Hapi first last Hrows visibleRows. split; [|split].
  - rewrite (extractVisibleRowsData_console w api Hapi). cbv zeta.
    fold first last.
    replace (last + 1 - first) with (last - first + 1) by lia.
    rewrite (omap_all_some (rowDataAt (grid w)) rows).
    + reflexivity.
    + intros i Hi. apply elem_of_seqZ in Hi. apply Hrows. lia.
  - intros H3 H7. unfold visibleRows. rewrite H3, H7. by vm_compute.
  - intros Hgt. unfold visibleRows. rewrite seqZ_nil by lia. done.
Qed.

Lemma visible_rows_are_displayed_range_witness :
  gridApi (ready 3 7) = Some TheGrid
  ∧ (∀ i, 3 ≤ i ≤ 7 → rowDataAt (grid (ready 3 7)) i = Some (sampleRowAt i))
  ∧ map Row.id (map sampleRowAt (seqZ 3 (7 - 3 + 1))) = [4; 5; 6; 7; 8].
Proof.
  assert (Hapi : gridApi (ready 3 7) = Some TheGrid) by reflexivity.
  assert (Hrows : ∀ i, 3 ≤ i ≤ 7 → rowDataAt (grid (ready 3 7)) i = Some (sampleRowAt i)).
  { intros i Hi.
    assert (i = 3 ∨ i = 4 ∨ i = 5 ∨ i = 6 ∨ i = 7) as [->|[->|[->|[->| ->]]]] by lia;
      reflexivity. }
  split; [exact Hapi|]. split; [exact Hrows|].
  destruct (proj1 (proj2
              (visible_rows_are_displayed_range (ready 3 7) TheGrid sampleRowAt
                 Hapi Hrows)) eq_refl eq_refl) as (_ & _ & Hids).
  exact Hids.
Defined.

(** C10. With the grid available and no index of [first..last] yielding row
    data (the range [-1..-1] of an empty viewport included), the viewport
    extractor still emits one [visible_rows_extracted] event: empty row and
    key lists, total 0, [visibleRowCount] 0 (the length of the collected
    list, not [last - first + 1]), and the raw queried indices. *)
Theorem visible_rows_none_with_data (w : World) (api : GridApi) :
  gridApi w = Some api →
  let first := getFirstDisplayedRowIndex (grid w) in
  let last := getLastDisplayedRowIndex (grid w) in
  (∀ i, first ≤ i ≤ last → rowDataAt (grid w) i = None) →
  console (extractVisibleRowsData w)
  = console w ++
      [stamped "visible_rows_extracted"
         (VisibleRowsExtracted
            {| firstRowIndex := first; lastRowIndex := last; visibleRowCount := 0 |}
            [] [] 0%float) w].
Proof.
  intros Hapi first last Hnone.
  rewrite (extractVisibleRowsData_console w api Hapi). cbv zeta. fold first last.
  rewrite omap_all_none; [reflexivity|].
  intros i Hi. apply elem_of_seqZ in Hi. apply Hnone. lia.
Qed.

Lemma visible_rows_none_with_data_witness :
  gridApi readyEmpty = Some TheGrid
  ∧ (∀ i, -1 ≤ i ≤ -1 → rowDataAt (grid readyEmpty) i = None)
  ∧ map Event.data (console (extractVisibleRowsData readyEmpty))
    = map Event.data (console readyEmpty)
      ++ [VisibleRowsExtracted
            {| firstRowIndex := -1; lastRowIndex := -1; visibleRowCount := 0 |}
            [] [] 0%float].
Proof.
  assert (Hapi : gridApi readyEmpty = Some TheGrid) by reflexivity.
  assert (Hnone : ∀ i, -1 ≤ i ≤ -1 → rowDataAt (grid readyEmpty) i = None).
  { intros i Hi. assert (i = -1) as -> by lia. reflexivity. }
  split; [exact Hapi|]. split; [exact Hnone|].
  rewrite (visible_rows_none_with_data readyEmpty TheGrid Hapi Hnone).
  rewrite map_app. vm_compute. reflexivity.
Defined.

(** ** Selection extractor *)

Lemma sumValue_is_sum rows : sumValue rows = sum_price_times_quantity rows.
Proof.
  unfold sumValue, sum_price_times_quantity, JS.zero.
  generalize 0%float. induction rows as [|r rows IH]; intros acc; [done|].
  cbn [fold_left map]. apply IH.
Qed.

(** C8. With the grid available, the selection extractor emits one
    [selected_rows_extracted] event whose [selectedCount] is the number of
    selected rows, whose [selectedIds] are their keys and whose
    [totalSelectedValue] is the sum of price x quantity over the selection;
    with nothing selected these are 0, empty lists and 0. *)
Theorem selected_rows_payload (w : World) (api : GridApi) :
  gridApi w = Some api →
  let selected := getSelectedRows (grid w) in
  console (extractSelectedRowsData w)
  = console w ++
      [stamped "selected_rows_extracted"
         (SelectedRowsExtracted (length selected) selected (map Row.id selected)
            (sum_price_times_quantity selected)) w]
  ∧ (selected = [] →
     console (extractSelectedRowsData w)
     = console w ++
         [stamped "selected_rows_extracted" (SelectedRowsExtracted 0 [] [] 0%float) w]
     ∧ PrimFloat.is_nan 0%float = false).
Proof.
  intros Hapi selected.
  assert (H : console (extractSelectedRowsData w)
    = console w ++
      [stamped "selected_rows_extracted"
         (SelectedRowsExtracted (length selected) selected (map Row.id selected)
            (sum_price_times_quantity selected)) w]).
  { unfold extractSelectedRowsData. rewrite Hapi. cbv zeta.
    rewrite sendTelemetryEvent_console, sumValue_is_sum. reflexivity. }
  split; [exact H|]. intros Hnil. rewrite H, Hnil. done.
Qed.

Lemma selected_rows_payload_witness :
  gridApi (ready 0 14) = Some TheGrid
  ∧ map Event.data (console (extractSelectedRowsData (ready 0 14)))
    = map Event.data (console (ready 0 14)) ++ [SelectedRowsExtracted 0 [] [] 0%float].
Proof.
  assert (Hapi : gridApi (ready 0 14) = Some TheGrid) by reflexivity.
  split; [exact Hapi|].
  rewrite (proj1 (selected_rows_payload (ready 0 14) TheGrid Hapi)).
  rewrite map_app. vm_compute. reflexivity.
Defined.

(** ** Guards on an unavailable grid *)

(** C6. While the grid API is unavailable ([gridApi] is null), each of the
    viewport, selection and full-state extractors and the scroll handler
    returns at once: the whole state (event buffer, console trace, timers,
    stats) is left as it was. *)
Theorem extractors_skip_without_grid (w : World) :
  gridApi w = None →
  extractVisibleRowsData w = w
  ∧ extractSelectedRowsData w = w
  ∧ extractAllGridData w = w
  ∧ ∀ event, onBodyScroll event w = w.
Proof.
  intros Hnone.
  unfold extractVisibleRowsData, extractSelectedRowsData, extractAllGridData,
    onBodyScroll.
  rewrite Hnone. done.
Qed.

Lemma extractors_skip_without_grid_witness :
  let w := boot (gridShowing generateSampleData 0 14) 0 in
  gridApi w = None
  ∧ extractVisibleRowsData w = w
  ∧ onBodyScroll (Scroll.mk "vertical" 120 0) w = w.
Proof.
  intros w.
  assert (Hnone : gridApi w = None) by reflexivity.
  destruct (extractors_skip_without_grid w Hnone) as (Hv & _ & _ & Hscroll).
  split; [exact Hnone|]. split; [exact Hv|]. apply Hscroll.
Defined.

(** ** Full-state extractor *)

Lemma extractAllGridData_console w api :
  gridApi w = Some api →
  let g := grid w in
  let allData := collectAll (forEachNode g) in
  console (extractAllGridData w)
  = console w ++
      [stamped "full_grid_state_extracted"
         (FullGridStateExtracted
            {| totalRows := length allData;
               displayedRows := getDisplayedRowCount g;
               selectedRowsMeta := length (getSelectedRows g) |}
            allData
            (map (fun col =>
                    Col.mk (Col.colId col) (Col.width col) (Col.hide col)
                      (Col.sort col) (Col.sortIndex col) (Col.pinned col))
                 (getColumnState g))
            (getFilterModel g)
            (getFirstDisplayedRowIndex g, getLastDisplayedRowIndex g)
            {| totalInventoryValue := sumValue allData;
               avgPrice := (sumPrice allData / JS.of_length (length allData))%float;
               inStockCount := length (List.filter Row.inStock allData);
               outOfStockCount :=
                 length (List.filter (fun r => negb (Row.inStock r)) allData) |}) w].
Proof.
  intros Hapi g allData. unfold extractAllGridData. rewrite Hapi. cbv zeta.
  by rewrite sendTelemetryEvent_console.
Qed.

(** Whenever the grid is ready and no node carries data, the average is
    0/0. *)
Lemma avgPrice_nan_without_rows w api :
  gridApi w = Some api →
  collectAll (forEachNode (grid w)) = [] →
  ∃ meta cols filters view agg,
    console (extractAllGridData w)
    = console w ++
        [stamped "full_grid_state_extracted"
           (FullGridStateExtracted meta [] cols filters view agg) w]
    ∧ totalRows meta = 0%nat
    ∧ PrimFloat.is_nan (avgPrice agg) = true.
Proof.
  intros Hapi Hnone.
  pose proof (extractAllGridData_console w api Hapi) as Hc. cbv zeta in Hc.
  rewrite Hnone in Hc. eexists _, _, _, _, _. split; [exact Hc|].
  split; reflexivity.
Qed.

(** The sample data set: 15 rows, 12 in stock, inventory worth 119014. *)
Example full_state_of_sample_data :
  ∃ meta cols filters agg,
    map Event.data (console (extractAllGridData (ready 0 14)))
    = map Event.data (console (ready 0 14))
      ++ [FullGridStateExtracted meta generateSampleData cols filters (0, 14) agg]
    ∧ totalRows meta = 15%nat
    ∧ inStockCount agg = 12%nat
    ∧ outOfStockCount agg = 3%nat
    ∧ totalInventoryValue agg = 119014%float.
Proof.
  eexists _, _, _, _. split; [vm_compute; reflexivity|].
  repeat split; reflexivity.
Qed.

Lemma collectAll_omap nodes : collectAll nodes = omap node_data nodes.
Proof.
  unfold collectAll.
  assert (H : ∀ acc, fold_left (fun allData node =>
                       match node_data node with
                       | Some d => allData ++ [d]
                       | None => allData
                       end) nodes acc = acc ++ omap node_data nodes).
  { induction nodes as [|n nodes IH]; intros acc; [by rewrite app_nil_r|].
    cbn [fold_left omap list_omap]. rewrite IH.
    destruct (node_data n); [by rewrite <- app_assoc|done]. }
  apply H.
Qed.

(** C3 as stated fails wherever the extractor does meet a grid without rows:
    on a ready page whose grid has been emptied, the payload has
    [totalRows = 0] and an [avgPrice] of 0/0, which is NaN; no guard and no
    sentinel stand in for it. *)
Lemma avgPrice_is_nan_on_emptied_grid :
  ∃ meta cols filters view agg,
    map Event.data (console (extractAllGridData emptiedPage))
    = map Event.data (console emptiedPage)
      ++ [FullGridStateExtracted meta [] cols filters view agg]
    ∧ totalRows meta = 0%nat
    ∧ totalInventoryValue agg = 0%float
    ∧ PrimFloat.is_nan (avgPrice agg) = true.
Proof.
  eexists _, _, _, _, _. split; [|split; [|split]].
  - vm_compute. reflexivity.
  - reflexivity.
  - reflexivity.
  - reflexivity.
Qed.

(** C3, amended. With the grid available, [avgPrice] is the sum of [price]
    over the rows with data divided by their number, unguarded.  Over the 15
    rows [App] gives the grid it is the defined number 7473/15 (neither NaN
    nor infinite); over no rows it is NaN. *)
Theorem avgPrice_is_unguarded_quotient (w : World) (api : GridApi) :
  gridApi w = Some api →
  let allData := omap node_data (forEachNode (grid w)) in
  ∃ meta cols filters view agg,
    console (extractAllGridData w)
    = console w ++
        [stamped "full_grid_state_extracted"
           (FullGridStateExtracted meta allData cols filters view agg) w]
    ∧ totalRows meta = length allData
    ∧ avgPrice agg = (sumPrice allData / JS.of_length (length allData))%float
    ∧ (allData = generateSampleData →
       totalRows meta = 15%nat
       ∧ avgPrice agg = (7473 / 15)%float
       ∧ PrimFloat.is_nan (avgPrice agg) = false
       ∧ PrimFloat.is_infinity (avgPrice agg) = false)
    ∧ (allData = [] → PrimFloat.is_nan (avgPrice agg) = true).
Proof.
  intros Hapi allData.
  pose proof (extractAllGridData_console w api Hapi) as Hc. cbv zeta in Hc.
  rewrite collectAll_omap in Hc. fold allData in Hc.
  eexists _, _, _, _, _. split; [exact Hc|].
  cbn [totalRows avgPrice]. split; [done|]. split; [done|]. split.
  - intros ->. by vm_compute.
  - intros ->. reflexivity.
Qed.

Lemma avgPrice_is_unguarded_quotient_witness :
  gridApi (ready 0 14) = Some TheGrid
  ∧ ∃ meta cols filters view agg,
      console (extractAllGridData (ready 0 14))
      = console (ready 0 14) ++
          [stamped "full_grid_state_extracted"
             (FullGridStateExtracted meta
                (omap node_data (forEachNode (grid (ready 0 14))))
                cols filters view agg) (ready 0 14)]
      ∧ avgPrice agg = (7473 / 15)%float.
Proof.
  assert (Hapi : gridApi (ready 0 14) = Some TheGrid) by reflexivity.
  split; [exact Hapi|].
  destruct (avgPrice_is_unguarded_quotient (ready 0 14) TheGrid Hapi)
    as (meta & cols & filters & view & agg & Hc & _ & _ & Hsample & _).
  exists meta, cols, filters, view, agg. split; [exact Hc|].
  apply Hsample. vm_compute. reflexivity.
Defined.

(** ** Row selection *)

Lemma onRowSelected_selected w api r :
  gridApi w = Some api →
  let w' := onRowSelected {| rs_node := {| node_data := Some r; isSelected := true |};
                             rs_data := Some r |} w in
  console w' = console w ++ [stamped "row_selected" (RowSelected (Row.id r) r "user_click") w]
  ∧ selectedRowsStat (stats w') = length (getSelectedRows (grid w))
  ∧ grid w' = grid w ∧ gridApi w' = gridApi w.
Proof.
  intros Hapi. unfold onRowSelected. cbn [isSelected rs_node rs_data].
  pose proof (sendTelemetryEvent_console "row_selected"
                (RowSelected (Row.id r) r "user_click") w) as Hc.
  destruct (sendTelemetryEvent_frame "row_selected"
              (RowSelected (Row.id r) r "user_click") w)
    as (Hg & Ha & _).
  cbv zeta in *.
  destruct (sendTelemetryEvent "row_selected" (RowSelected (Row.id r) r "user_click") w)
    as [e w1].
  cbn [fst snd] in *. rewrite Ha, Hapi. cbn. unfold api_grid.
  by rewrite Hc, Hg, Ha.
Qed.

Lemma onRowSelected_deselected w api r :
  gridApi w = Some api →
  let w' := onRowSelected {| rs_node := {| node_data := Some r; isSelected := false |};
                             rs_data := Some r |} w in
  console w' = console w
  ∧ selectedRowsStat (stats w') = length (getSelectedRows (grid w))
  ∧ grid w' = grid w ∧ gridApi w' = gridApi w.
Proof.
  intros Hapi. unfold onRowSelected. cbn [isSelected rs_node rs_data].
  rewrite Hapi. done.
Qed.

Lemma onRowSelected_not_selected event w api :
  gridApi w = Some api →
  isSelected (rs_node event) = false →
  console (onRowSelected event w) = console w
  ∧ gridApi (onRowSelected event w) = Some api
  ∧ selectedRowsStat (stats (onRowSelected event w)) = length (getSelectedRows (grid w)).
Proof.
  intros Hapi Hsel. unfold onRowSelected. rewrite Hsel, Hapi. done.
Qed.

Lemma selectionReport_selected g r w api :
  gridApi w = Some api →
  console (selectionReport g (selectedEvent r) w)
  = console w ++ [stamped "row_selected" (RowSelected (Row.id r) r "user_click") w]
  ∧ selectedRowsStat (stats (selectionReport g (selectedEvent r) w))
    = length (getSelectedRows g)
  ∧ gridApi (selectionReport g (selectedEvent r) w) = Some api.
Proof.
  intros Hapi. unfold selectionReport, selectedEvent.
  destruct (onRowSelected_selected (set_grid g w) api r Hapi) as (Hc & Hs & _ & Ha).
  cbv zeta in Hc, Hs, Ha. rewrite Hc, Hs, Ha. by split.
Qed.

Lemma selectionReport_deselected g r w api :
  gridApi w = Some api →
  console (selectionReport g (deselectedEvent r) w) = console w
  ∧ selectedRowsStat (stats (selectionReport g (deselectedEvent r) w))
    = length (getSelectedRows g).
Proof.
  intros Hapi. unfold selectionReport.
  destruct (onRowSelected_not_selected (deselectedEvent r) (set_grid g w) api
              Hapi eq_refl) as (Hc & _ & Hs).
  rewrite Hc, Hs. by split.
Qed.

Lemma selectionReports_cons g event reports w :
  selectionReports ((g, event) :: reports) w
  = selectionReports reports (selectionReport g event w).
Proof. reflexivity. Qed.

(** Reports of deselections emit nothing. *)
Lemma selectionReports_deselections api reports : ∀ w,
  gridApi w = Some api →
  Forall (fun '(_, event) => isSelected (rs_node event) = false) reports →
  console (selectionReports reports w) = console w
  ∧ gridApi (selectionReports reports w) = Some api.
Proof.
  induction reports as [|[g event] reports IH]; intros w Hapi Hall; [done|].
  apply Forall_cons in Hall as [Hsel Hall]. rewrite selectionReports_cons.
  destruct (onRowSelected_not_selected event (set_grid g w) api Hapi Hsel)
    as (Hc & Ha & _).
  destruct (IH (selectionReport g event w) Ha Hall) as [Hc' Ha'].
  split; [|exact Ha']. rewrite Hc'. exact Hc.
Qed.

(** C9, amended. With the grid available, the report that row [r] became
    selected emits exactly one [row_selected] event (key, row data, the
    [user_click] tag); the report that it stopped being selected emits none,
    nor do the reports of other rows being deselected in between.  On every
    report the selected-count statistic is set to the number of rows the grid
    then reports as selected; after the deselection it has its pre-selection
    value exactly when that number equals the value it showed before. *)
Theorem row_selected_asymmetry (w : World) (api : GridApi) (r : RowData)
    (g1 g2 : Grid) (between : list (Grid * RowSelectedEvent)) :
  gridApi w = Some api →
  Forall (fun '(_, event) => isSelected (rs_node event) = false) between →
  let w1 := selectionReport g1 (selectedEvent r) w in
  let w2 := selectionReport g2 (deselectedEvent r) (selectionReports between w1) in
  console w1
  = console w ++ [stamped "row_selected" (RowSelected (Row.id r) r "user_click") w]
  ∧ selectedRowsStat (stats w1) = length (getSelectedRows g1)
  ∧ console w2 = console w1
  ∧ selectedRowsStat (stats w2) = length (getSelectedRows g2)
  ∧ (selectedRowsStat (stats w2) = selectedRowsStat (stats w)
     ↔ length (getSelectedRows g2) = selectedRowsStat (stats w)).
Proof.
  intros Hapi Hbetween. cbv zeta.
  destruct (selectionReport_selected g1 r w api Hapi) as (Hc1 & Hs1 & Ha1).
  set (w1 := selectionReport g1 (selectedEvent r) w) in *.
  destruct (selectionReports_deselections api between w1 Ha1 Hbetween) as [Hcb Hab].
  set (wb := selectionReports between w1) in *.
  destruct (selectionReport_deselected g2 r wb api Hab) as (Hc2 & Hs2).
  split; [exact Hc1|]. split; [exact Hs1|].
  split; [by rewrite Hc2, Hcb|]. split; [exact Hs2|].
  by rewrite Hs2.
Qed.

(** C9 as stated fails once the statistic is stale: with one row selected,
    [clearTelemetry] zeroes the selected-count statistic; ticking and then
    unticking the checkbox of another row leaves the selection as it was and
    emits one [row_selected] event, but the statistic ends at 1, not at its
    pre-selection value 0. *)
Lemma selected_count_not_restored_when_stale :
  let sample := gridShowing generateSampleData 0 14 in
  let one := withSelectedRows [notebook] sample in
  let two := withSelectedRows [notebook; keyboard] sample in
  let w0 := clearTelemetry (selectionReport one (selectedEvent notebook) (ready 0 14)) in
  let w2 := selectionReport one (deselectedEvent keyboard)
              (selectionReport two (selectedEvent keyboard) w0) in
  gridApi w0 = Some TheGrid
  ∧ map Row.id (getSelectedRows (grid w0)) = [7]
  ∧ selectedRowsStat (stats w0) = 0%nat
  ∧ map Row.id (getSelectedRows (grid w2)) = [7]
  ∧ length (console w2) = S (length (console w0))
  ∧ selectedRowsStat (stats w2) = 1%nat
  ∧ selectedRowsStat (stats w2) ≠ selectedRowsStat (stats w0).
Proof. vm_compute. repeat split; discriminate. Qed.

Lemma row_selected_asymmetry_witness :
  let sample := gridShowing generateSampleData 0 14 in
  let w := selectionReport (withSelectedRows [notebook] sample) (selectedEvent notebook)
             (ready 0 14) in
  let between := [(withSelectedRows [keyboard] sample, deselectedEvent notebook)] in
  gridApi w = Some TheGrid
  ∧ Forall (fun '(_, event) => isSelected (rs_node event) = false) between
  ∧ selectedRowsStat
      (stats (selectionReport sample (deselectedEvent keyboard)
                (selectionReports between
                   (selectionReport (withSelectedRows [notebook; keyboard] sample)
                      (selectedEvent keyboard) w))))
    = 0%nat.
Proof.
  intros sample w between.
  assert (Hapi : gridApi w = Some TheGrid) by reflexivity.
  assert (Hbetween : Forall (fun '(_, event) => isSelected (rs_node event) = false)
                       between).
  { repeat constructor. }
  split; [exact Hapi|]. split; [exact Hbetween|].
  exact (proj1 (proj2 (proj2 (proj2
           (row_selected_asymmetry w TheGrid keyboard
              (withSelectedRows [notebook; keyboard] sample) sample between
              Hapi Hbetween))))).
Defined.

(** ** Snapshots of the buffer *)

Lemma send_frame eventType data w l :
  l ≠ events (telemetry w) →
  deref l (send eventType data w).2 = deref l w
  ∧ next_loc (send eventType data w).2 = next_loc w
  ∧ telemetry (send eventType data w).2 = telemetry w.
Proof.
  intros Hl. unfold send, modify, deref, store; cbn.
  by rewrite !lookup_insert_ne.
Qed.

Lemma clear_frame w l :
  l ≠ events (telemetry w) →
  deref l (clear w) = deref l w
  ∧ next_loc (clear w) = next_loc w
  ∧ telemetry (clear w) = telemetry w.
Proof.
  intros Hl. unfold clear, modify, deref, store; cbn. by rewrite lookup_insert_ne.
Qed.

Lemma sendTelemetryEvent_heap eventType data w l :
  l ≠ events (telemetry w) → (l < next_loc w)%nat →
  (events (telemetry w) < next_loc w)%nat →
  deref l (sendTelemetryEvent eventType data w).2 = deref l w
  ∧ next_loc (sendTelemetryEvent eventType data w).2 = S (next_loc w)
  ∧ telemetry (sendTelemetryEvent eventType data w).2 = telemetry w
  ∧ telemetryEvents (sendTelemetryEvent eventType data w).2 = next_loc w
  ∧ deref (next_loc w) (sendTelemetryEvent eventType data w).2
    = buffer (sendTelemetryEvent eventType data w).2.
Proof.
  intros Hl Hlt Hev. unfold sendTelemetryEvent.
  destruct (send_frame eventType data w l Hl) as (Hd & Hn & Ht).
  destruct (send eventType data w) as [e w1]; cbn [fst snd] in *.
  unfold buffer, deref, alloc in *; cbn.
  rewrite Hn, Ht, lookup_insert_eq, !lookup_insert_ne by lia.
  repeat split; try done.
Qed.

Lemma clearTelemetry_heap w l :
  l ≠ events (telemetry w) → (l < next_loc w)%nat →
  deref l (clearTelemetry w) = deref l w
  ∧ next_loc (clearTelemetry w) = S (next_loc w)
  ∧ telemetry (clearTelemetry w) = telemetry w.
Proof.
  intros Hl Hlt. unfold clearTelemetry, clear, modify, store, alloc, deref; cbn.
  rewrite !lookup_insert_ne by lia. done.
Qed.

Lemma later_call_keeps c w snap :
  separate_from_buffer snap w →
  deref snap (later_call c w) = deref snap w
  ∧ separate_from_buffer snap (later_call c w).
Proof.
  intros (Hne & Hlt & Hev). unfold separate_from_buffer.
  destruct c as [ty d| |ty d|]; cbn [later_call].
  - destruct (send_frame ty d w snap Hne) as (-> & -> & ->). done.
  - destruct (clear_frame w snap Hne) as (-> & -> & ->). done.
  - destruct (sendTelemetryEvent_heap ty d w snap Hne Hlt Hev) as (-> & -> & -> & _).
    repeat split; [done | lia | lia].
  - destruct (clearTelemetry_heap w snap Hne Hlt) as (-> & -> & ->).
    repeat split; [done | lia | lia].
Qed.

Lemma later_calls_keep cs : ∀ w snap,
  separate_from_buffer snap w →
  deref snap (later_calls cs w) = deref snap w.
Proof.
  induction cs as [|c cs IH]; intros w snap Hsep; [done|].
  cbn [later_calls fold_left].
  destruct (later_call_keeps c w snap Hsep) as [Hd Hsep'].
  change (fold_left _ cs (later_call c w)) with (later_calls cs (later_call c w)).
  by rewrite (IH _ _ Hsep').
Qed.

Lemma sendTelemetryEvent_snapshot eventType data w :
  (events (telemetry w) < next_loc w)%nat →
  let w1 := (sendTelemetryEvent eventType data w).2 in
  telemetryEvents w1 = next_loc w
  ∧ telemetry w1 = telemetry w
  ∧ next_loc w1 = S (next_loc w)
  ∧ deref (next_loc w) w1 = buffer w1.
Proof.
  intros Hev. cbv zeta. unfold sendTelemetryEvent.
  assert (Hne : next_loc w ≠ events (telemetry w)) by lia.
  destruct (send_frame eventType data w (next_loc w) Hne) as (_ & Hn & Ht).
  destruct (send eventType data w) as [e w1]; cbn [fst snd] in *.
  unfold buffer, deref, alloc; cbn.
  rewrite Hn, Ht, lookup_insert_eq, lookup_insert_ne by lia. done.
Qed.

(** C2 as stated fails: the service object exposes its array as [events], so
    what a consumer reads from [telemetry.events] is the emitter's own array;
    held across a later [send] it shows the new event, and after [clear] it is
    empty. *)
Lemma events_property_is_live :
  let w0 := ready 0 14 in
  let seen := events (telemetry w0) in
  length (deref seen w0) = 1%nat
  ∧ length (deref seen (send "row_selected" (RowSelected 3 keyboard "user_click") w0).2)
    = 2%nat
  ∧ deref seen (clear w0) = []
  ∧ deref seen (clear w0) ≠ deref seen w0.
Proof. vm_compute. repeat split; discriminate. Qed.

(** C2, amended. The array that [sendTelemetryEvent] hands to the UI state is
    a fresh copy: it is not the service's array, it holds the buffer contents
    of that moment, and no later [send], [clear], [sendTelemetryEvent] or
    [clearTelemetry] changes it. *)
Theorem published_snapshot_is_stable (w : World) (eventType : string) (data : Payload)
    (later : list LaterCall) :
  (events (telemetry w) < next_loc w)%nat →
  let w1 := (sendTelemetryEvent eventType data w).2 in
  let snapshot := telemetryEvents w1 in
  snapshot ≠ events (telemetry w1)
  ∧ deref snapshot w1 = buffer w1
  ∧ deref snapshot (later_calls later w1) = deref snapshot w1.
Proof.
  intros Hev w1 snapshot.
  destruct (sendTelemetryEvent_snapshot eventType data w Hev) as (Hs & Ht & Hn & Hd).
  fold w1 in Hs, Ht, Hn, Hd. fold snapshot in Hs.
  assert (Hsep : separate_from_buffer snapshot w1).
  { unfold separate_from_buffer. rewrite Hs, Ht, Hn. repeat split; lia. }
  split; [apply Hsep|]. split; [by rewrite Hs|].
  by apply later_calls_keep.
Qed.

Lemma published_snapshot_is_stable_witness :
  (events (telemetry (ready 0 14)) < next_loc (ready 0 14))%nat
  ∧ deref (telemetryEvents
             (sendTelemetryEvent "row_selected" (RowSelected 3 keyboard "user_click")
                (ready 0 14)).2)
      (later_calls [CallSend "grid_initialized" (GridInitialized 0 [] "x"); CallClear]
         (sendTelemetryEvent "row_selected" (RowSelected 3 keyboard "user_click")
            (ready 0 14)).2)
    = deref (telemetryEvents
               (sendTelemetryEvent "row_selected" (RowSelected 3 keyboard "user_click")
                  (ready 0 14)).2)
        (sendTelemetryEvent "row_selected" (RowSelected 3 keyboard "user_click")
           (ready 0 14)).2.
Proof.
  assert (H : (events (telemetry (ready 0 14)) < next_loc (ready 0 14))%nat).
  { vm_compute. lia. }
  split; [exact H|].
  exact (proj2 (proj2
           (published_snapshot_is_stable (ready 0 14) "row_selected"
              (RowSelected 3 keyboard "user_click")
              [CallSend "grid_initialized" (GridInitialized 0 [] "x"); CallClear] H))).
Defined.

(** ** The scroll tracker *)

Lemma console_set_clock c w : console (set_clock c w) = console w.
Proof. reflexivity. Qed.

Lemma timers_set_clock c w : timers (set_clock c w) = timers w.
Proof. reflexivity. Qed.

Lemma clock_set_clock c w : clock (set_clock c w) = c.
Proof. reflexivity. Qed.

Lemma onBodyScroll_rearms w api event :
  gridApi w = Some api →
  tracker_ok w →
  onBodyScroll event w
  = set_scrollTimeoutRef (Some (next_handle w))
      (set_next_handle (Pos.succ (next_handle w))
         (set_timers [{| handle := next_handle w; deadline := clock w + 300;
                         closure_api := api; closure_event := event |}] w)).
Proof.
  intros Hapi Hok. unfold onBodyScroll. rewrite Hapi. unfold tracker_ok in Hok.
  destruct w as [hp nl co cl uu ts nh g tel ga te st ref]. cbn in *.
  destruct Hok as [->|(t & -> & ->)].
  - destruct ref; reflexivity.
  - unfold clearTimeout, setTimeout; cbn. rewrite Pos.eqb_refl. reflexivity.
Qed.

Lemma advance_idle w dt :
  timers w = [] → advance dt w = set_clock (clock w + dt) w.
Proof. intros H. unfold advance. rewrite H. reflexivity. Qed.

Lemma advance_before w t dt :
  timers w = [t] → clock w + dt < deadline t →
  advance dt w = set_clock (clock w + dt) w.
Proof.
  intros H Hlt. unfold advance. rewrite H. cbn [length run_due]. rewrite H.
  cbn [earliest]. destruct (Z.leb_spec (deadline t) (clock w + dt)); [lia|done].
Qed.

Lemma advance_fires w t dt :
  timers w = [t] → clock w ≤ deadline t ≤ clock w + dt →
  advance dt w
  = set_clock (clock w + dt)
      (scrollCallback (closure_api t) (closure_event t)
         (set_clock (deadline t) (set_timers [] w))).
Proof.
  intros H Hdue. unfold advance. rewrite H. cbn [length run_due]. rewrite H.
  cbn [earliest]. destruct (Z.leb_spec (deadline t) (clock w + dt)); [|lia].
  unfold clearTimeout. rewrite H. cbn [List.filter]. rewrite Pos.eqb_refl.
  cbn [negb clock set_timers]. rewrite Z.max_r by lia. reflexivity.
Qed.

Lemma scrollCallback_console api event w :
  console (scrollCallback api event w)
  = console w ++
      [stamped "grid_scrolled"
         (GridScrolled (Scroll.direction event)
            {| sv_firstRow := getFirstDisplayedRowIndex (grid w);
               sv_lastRow := getLastDisplayedRowIndex (grid w);
               sv_visibleRowCount :=
                 getLastDisplayedRowIndex (grid w) - getFirstDisplayedRowIndex (grid w) + 1 |}
            (Scroll.top event, Scroll.left event)) w].
Proof. unfold scrollCallback. by rewrite sendTelemetryEvent_console. Qed.

Lemma scrollCallback_frame api event w :
  timers (scrollCallback api event w) = timers w
  ∧ scrollTimeoutRef (scrollCallback api event w) = scrollTimeoutRef w
  ∧ gridApi (scrollCallback api event w) = gridApi w.
Proof.
  unfold scrollCallback.
  destruct (sendTelemetryEvent_frame "grid_scrolled"
    (GridScrolled (Scroll.direction event)
       {| sv_firstRow := getFirstDisplayedRowIndex (api_grid api w);
          sv_lastRow := getLastDisplayedRowIndex (api_grid api w);
          sv_visibleRowCount :=
            getLastDisplayedRowIndex (api_grid api w)
            - getFirstDisplayedRowIndex (api_grid api w) + 1 |}
       (Scroll.top event, Scroll.left event)) w) as (_ & Ha & Ht & _ & Hr & _).
  done.
Qed.

(** *** The clock runs every due timer *)

Lemma earliest_spec ts t :
  earliest ts = Some t →
  t ∈ ts ∧ Forall (fun t' => deadline t ≤ deadline t') ts.
Proof.
  revert t. induction ts as [|t0 ts IH]; intros t He; [discriminate|].
  cbn [earliest] in He. destruct (earliest ts) as [t'|] eqn:Het.
  - destruct (IH t' eq_refl) as [Hin Hall].
    destruct (Z.ltb_spec (deadline t') (deadline t0)); injection He as <-.
    + split; [by right|]. constructor; [lia|done].
    + split; [by left|]. constructor; [lia|].
      eapply Forall_impl; [exact Hall|]. cbn. intros; lia.
  - injection He as <-. split; [by left|]. destruct ts as [|t1 ts]; [by repeat constructor|].
    cbn [earliest] in Het. destruct (earliest ts); [|done]. by destruct (_ <? _).
Qed.

Lemma earliest_none ts : earliest ts = None → ts = [].
Proof.
  destruct ts as [|t ts]; [done|]. cbn [earliest].
  destruct (earliest ts); [|done]. by destruct (_ <? _).
Qed.

Lemma clearTimeout_shrinks t w :
  t ∈ timers w →
  (length (timers (clearTimeout (handle t) w)) < length (timers w))%nat.
Proof.
  unfold clearTimeout. cbn [timers set_timers].
  induction (timers w) as [|t0 ts IH]; intros Hin; [by inversion Hin|].
  cbn [List.filter length]. apply elem_of_cons in Hin as [<-|Hin].
  - rewrite Pos.eqb_refl. cbn [negb].
    pose proof (List.filter_length_le
                  (fun t' => negb (Pos.eqb (handle t') (handle t))) ts). lia.
  - specialize (IH Hin). destruct (negb _); cbn [length]; lia.
Qed.

Lemma clearTimeout_keeps (P : Timer → Prop) h w :
  Forall P (timers w) → Forall P (timers (clearTimeout h w)).
Proof.
  unfold clearTimeout. cbn [timers set_timers]. intros Hall.
  induction Hall as [|t ts Ht Hall IH]; [constructor|].
  cbn [List.filter]. destruct (negb _); [by constructor|done].
Qed.

(** With as much fuel as armed timers, [run_due] leaves no timer due at or
    before [target]. *)
Lemma run_due_complete target fuel : ∀ w,
  (length (timers w) ≤ fuel)%nat →
  Forall (fun t => target < deadline t) (timers (run_due fuel target w)).
Proof.
  induction fuel as [|fuel IH]; intros w Hlen.
  - cbn [run_due]. destruct (timers w); [constructor|cbn in Hlen; lia].
  - cbn [run_due]. destruct (earliest (timers w)) as [t|] eqn:He.
    + destruct (earliest_spec _ _ He) as [Hin Hmin].
      destruct (Z.leb_spec (deadline t) target) as [Hdue|Hlater].
      * apply IH.
        destruct (scrollCallback_frame (closure_api t) (closure_event t)
                    (set_clock (Z.max (clock (clearTimeout (handle t) w)) (deadline t))
                       (clearTimeout (handle t) w))) as (-> & _).
        rewrite timers_set_clock.
        pose proof (clearTimeout_shrinks t w Hin). lia.
      * eapply Forall_impl; [exact Hmin|]. cbn. intros; lia.
    + apply earliest_none in He. rewrite He. constructor.
Qed.

Lemma advance_runs_all_due dt w :
  Forall (fun t => clock w + dt < deadline t) (timers (advance dt w)).
Proof.
  unfold advance. rewrite timers_set_clock. by apply run_due_complete.
Qed.

(** The tracker invariant holds from the start and through every step. *)
Lemma tracker_ok_boot g now : tracker_ok (boot g now).
Proof. by left. Qed.

Lemma advance_single w t dt :
  timers w = [t] →
  advance dt w
  = if deadline t <=? clock w + dt then
      set_clock (clock w + dt)
        (scrollCallback (closure_api t) (closure_event t)
           (set_clock (Z.max (clock w) (deadline t)) (set_timers [] w)))
    else set_clock (clock w + dt) w.
Proof.
  intros H. unfold advance. rewrite H. cbn [length run_due]. rewrite H.
  cbn [earliest]. destruct (deadline t <=? clock w + dt); [|reflexivity].
  unfold clearTimeout. rewrite H. cbn [List.filter]. rewrite Pos.eqb_refl.
  reflexivity.
Qed.

Lemma tracker_ok_perform a w : tracker_ok w → tracker_ok (perform a w).
Proof.
  intros Hok. destruct a as [event|dt|g]; cbn [perform].
  - destruct (gridApi w) as [api|] eqn:Hapi.
    + rewrite (onBodyScroll_rearms w api event Hapi Hok). right. by eexists.
    + unfold onBodyScroll. by rewrite Hapi.
  - destruct Hok as [Hnil|(t & Ht & Href)].
    + rewrite advance_idle by done. by left.
    + rewrite (advance_single w t dt Ht).
      destruct (deadline t <=? clock w + dt).
      * by left.
      * right. by exists t.
  - exact Hok.
Qed.

Lemma tracker_ok_same w w' :
  timers w' = timers w → scrollTimeoutRef w' = scrollTimeoutRef w →
  tracker_ok w → tracker_ok w'.
Proof. unfold tracker_ok. by intros -> ->. Qed.

Lemma onRowSelected_timers event w :
  timers (onRowSelected event w) = timers w
  ∧ scrollTimeoutRef (onRowSelected event w) = scrollTimeoutRef w.
Proof.
  unfold onRowSelected.
  destruct (isSelected (rs_node event)), (rs_data event); cbv zeta;
    case_match; done.
Qed.

(** The other handlers leave the timer table and the ref alone. *)
Lemma tracker_ok_handlers w :
  tracker_ok w →
  tracker_ok (extractVisibleRowsData w)
  ∧ tracker_ok (extractSelectedRowsData w)
  ∧ tracker_ok (extractAllGridData w)
  ∧ tracker_ok (clearTelemetry w)
  ∧ tracker_ok (unmount w)
  ∧ (∀ event, tracker_ok (onRowSelected event w))
  ∧ (∀ api n fields, tracker_ok (onGridReady api n fields w)).
Proof.
  intros Hok. repeat split.
  - unfold extractVisibleRowsData. destruct (gridApi w); [|done].
    by apply (tracker_ok_same w).
  - unfold extractSelectedRowsData. destruct (gridApi w); [|done].
    by apply (tracker_ok_same w).
  - unfold extractAllGridData. destruct (gridApi w); [|done].
    by apply (tracker_ok_same w).
  - by apply (tracker_ok_same w).
  - done.
  - intros event. destruct (onRowSelected_timers event w) as [Ht Hr].
    by apply (tracker_ok_same w).
  - intros api n fields. by apply (tracker_ok_same w).
Qed.

Lemma last_cons {A} (l : list A) : ∀ (x d : A), List.last (x :: l) d = List.last l x.
Proof.
  induction l as [|y l IH]; intros x d; [done|].
  change (List.last (x :: y :: l) d) with (List.last (y :: l) d).
  by rewrite !IH.
Qed.

Lemma run_app a b w : run (a ++ b) w = run b (run a w).
Proof. unfold run. apply fold_left_app. Qed.

Lemma armed_first_scroll w api event :
  gridApi w = Some api → tracker_ok w →
  armed w (onBodyScroll event w) api event
  ∧ clock (onBodyScroll event w) = clock w
  ∧ grid (onBodyScroll event w) = grid w.
Proof.
  intros Hapi Hok. rewrite (onBodyScroll_rearms w api event Hapi Hok).
  unfold armed; cbn. repeat split; try done. by eexists.
Qed.

Lemma armed_next_scroll w0 w api event gap g event' :
  armed w0 w api event → 0 ≤ gap < 300 →
  let w' := onBodyScroll event' (set_grid g (advance gap w)) in
  armed w0 w' api event' ∧ clock w' = clock w + gap.
Proof.
  intros (Hapi & Hc & Hu & h & Ht & Href) Hgap. cbv zeta.
  rewrite (advance_before w _ gap Ht) by (cbn; lia).
  set (w1 := set_grid g (set_clock (clock w + gap) w)).
  assert (Hapi1 : gridApi w1 = Some api) by exact Hapi.
  assert (Hok1 : tracker_ok w1).
  { right. eexists. split; [exact Ht|exact Href]. }
  destruct (armed_first_scroll w1 api event' Hapi1 Hok1) as ((Ha & Hc' & Hu' & Hh) & Hcl & _).
  split; [|exact Hcl].
  unfold armed. repeat split; [done | by rewrite Hc' | by rewrite Hu' | done].
Qed.

Lemma run_cons a l w : run (a :: l) w = run l (perform a w).
Proof. reflexivity. Qed.

Lemma burst_actions_cons gap g event rest :
  burst_actions ((gap, g, event) :: rest)
  = Waits gap :: GridChanges g :: Scrolls event :: burst_actions rest.
Proof. reflexivity. Qed.

Lemma burst_duration_cons gap g event rest :
  burst_duration ((gap, g, event) :: rest) = gap + burst_duration rest.
Proof. reflexivity. Qed.

Lemma burst_last_cons first gap g event rest :
  burst_last first ((gap, g, event) :: rest) = burst_last event rest.
Proof. unfold burst_last. cbn [map snd]. apply last_cons. Qed.

Lemma armed_burst w0 api rest : ∀ w event,
  armed w0 w api event →
  Forall (fun '(gap, _, _) => 0 ≤ gap < 300) rest →
  armed w0 (run (burst_actions rest) w) api (burst_last event rest)
  ∧ clock (run (burst_actions rest) w) = clock w + burst_duration rest.
Proof.
  induction rest as [|[[gap g] event'] rest IH]; intros w event Harmed Hgaps.
  - cbn. split; [done|lia].
  - apply Forall_cons in Hgaps as [Hgap Hgaps].
    destruct (armed_next_scroll w0 w api event gap g event' Harmed Hgap) as [Ha Hcl].
    cbv zeta in Ha, Hcl.
    destruct (IH _ event' Ha Hgaps) as [Ha' Hcl'].
    rewrite burst_actions_cons, burst_duration_cons, burst_last_cons, !run_cons.
    cbn [perform]. split; [exact Ha'|]. rewrite Hcl', Hcl. lia.
Qed.

Lemma armed_quiet w0 w api event d q g' :
  armed w0 w api event → 0 ≤ d < 300 → 300 ≤ d + q →
  let w' := advance q (set_grid g' (advance d w)) in
  console w'
  = console w0 ++
      [Event.mk (uuid_draws w0) "grid_scrolled" (clock w + 300)
         (GridScrolled (Scroll.direction event)
            {| sv_firstRow := getFirstDisplayedRowIndex g';
               sv_lastRow := getLastDisplayedRowIndex g';
               sv_visibleRowCount :=
                 getLastDisplayedRowIndex g' - getFirstDisplayedRowIndex g' + 1 |}
            (Scroll.top event, Scroll.left event))]
  ∧ timers w' = []
  ∧ clock w' = clock w + d + q.
Proof.
  intros (Hapi & Hc & Hu & h & Ht & Href) Hd Hq. cbv zeta.
  rewrite (advance_before w _ d Ht) by (cbn; lia).
  assert (Ht3 : timers (set_grid g' (set_clock (clock w + d) w))
                = [{| handle := h; deadline := clock w + 300;
                      closure_api := api; closure_event := event |}])
    by exact Ht.
  rewrite (advance_fires _ _ q Ht3) by (cbn; lia).
  cbn [closure_api closure_event deadline].
  split; [|split].
  - rewrite console_set_clock, scrollCallback_console. unfold stamped.
    cbn [console uuid_draws clock grid set_clock set_timers set_grid].
    by rewrite Hc, Hu.
  - rewrite timers_set_clock.
    by destruct (scrollCallback_frame api event
         (set_clock (clock w + 300)
            (set_timers [] (set_grid g' (set_clock (clock w + d) w))))) as (-> & _).
  - rewrite clock_set_clock. cbn [clock set_clock set_grid]. lia.
Qed.

(** C4. On a ready grid, a burst of scroll events each less than 300 ms after
    the previous one, followed by 300 ms or more of silence, emits exactly one
    [grid_scrolled] event, stamped 300 ms after the last scroll event of the
    burst, and leaves no timer armed.  Arming always leaves a single timer,
    whether or not one was armed before.  The payload's viewport is read from
    the grid as it is when the timer fires ([g'], rendered during the quiet
    period), with [visibleRowCount = last - first + 1]; direction and offsets
    are those of the last scroll event. *)
Theorem scroll_burst_emits_once (w : World) (api : GridApi) (first : BodyScrollEvent)
    (rest : list (Z * Grid * BodyScrollEvent)) (d q : Z) (g' : Grid) :
  gridApi w = Some api →
  tracker_ok w →
  Forall (fun '(gap, _, _) => 0 ≤ gap < 300) rest →
  0 ≤ d < 300 →
  300 ≤ d + q →
  let last_event := burst_last first rest in
  let t_last := clock w + burst_duration rest in
  let w' := run (Scrolls first :: burst_actions rest
                 ++ [Waits d; GridChanges g'; Waits q]) w in
  timers (onBodyScroll first w)
  = [{| handle := next_handle w; deadline := clock w + 300;
        closure_api := api; closure_event := first |}]
  ∧ console w'
    = console w ++
        [Event.mk (uuid_draws w) "grid_scrolled" (t_last + 300)
           (GridScrolled (Scroll.direction last_event)
              {| sv_firstRow := getFirstDisplayedRowIndex g';
                 sv_lastRow := getLastDisplayedRowIndex g';
                 sv_visibleRowCount :=
                   getLastDisplayedRowIndex g' - getFirstDisplayedRowIndex g' + 1 |}
              (Scroll.top last_event, Scroll.left last_event))]
  ∧ timers w' = []
  ∧ clock w' = t_last + d + q.
Proof.
  intros Hapi Hok Hgaps Hd Hq last_event t_last w'.
  split; [by rewrite (onBodyScroll_rearms w api first Hapi Hok)|].
  destruct (armed_first_scroll w api first Hapi Hok) as (Harmed & Hcl & _).
  destruct (armed_burst w api rest _ first Harmed Hgaps) as [Ha Hcl2].
  rewrite Hcl in Hcl2. fold last_event in Ha. fold t_last in Hcl2.
  assert (Hw' : w' = advance q (set_grid g' (advance d
                       (run (burst_actions rest) (onBodyScroll first w))))).
  { unfold w'. rewrite run_cons, run_app. reflexivity. }
  destruct (armed_quiet w _ api last_event d q g' Ha Hd Hq) as (Hc & Ht & Hclk).
  rewrite Hw', Hc, Ht, Hclk, Hcl2. done.
Qed.

Lemma scroll_burst_emits_once_witness :
  let first := Scroll.mk "vertical" 120 0 in
  let rest := [(50, gridShowing generateSampleData 2 11, Scroll.mk "vertical" 240 0);
               (50, gridShowing generateSampleData 4 13, Scroll.mk "vertical" 300 0)] in
  let g' := gridShowing generateSampleData 5 14 in
  let w' := run (Scrolls first :: burst_actions rest
                 ++ [Waits 100; GridChanges g'; Waits 1000]) (ready 0 9) in
  gridApi (ready 0 9) = Some TheGrid
  ∧ tracker_ok (ready 0 9)
  ∧ console w'
    = console (ready 0 9) ++
        [Event.mk 1 "grid_scrolled" 400
           (GridScrolled "vertical"
              {| sv_firstRow := 5; sv_lastRow := 14; sv_visibleRowCount := 10 |}
              (300, 0))].
Proof.
  intros first rest g' w'.
  assert (Hapi : gridApi (ready 0 9) = Some TheGrid) by reflexivity.
  assert (Hok : tracker_ok (ready 0 9)) by (by left).
  assert (Hgaps : Forall (fun '(gap, _, _) => 0 ≤ gap < 300) rest).
  { repeat constructor; lia. }
  assert (Hd : 0 ≤ 100 < 300) by lia.
  assert (Hq : 300 ≤ 100 + 1000) by lia.
  split; [exact Hapi|]. split; [exact Hok|].
  exact (proj1 (proj2
           (scroll_burst_emits_once (ready 0 9) TheGrid first rest 100 1000 g'
              Hapi Hok Hgaps Hd Hq))).
Defined.

(** C5, as the code behaves: [App] registers no cleanup, so unmounting
    leaves the armed debounce timer in place; 300 ms after the scroll event
    it fires and a [grid_scrolled] event is emitted after the teardown. *)
Theorem scroll_timer_survives_unmount :
  let event := Scroll.mk "vertical" 120 0 in
  let w1 := unmount (onBodyScroll event (ready 0 9)) in
  map handle (timers w1) = [1%positive]
  ∧ map Event.eventType (console w1) = ["grid_initialized"]
  ∧ map Event.eventType (console (advance 300 w1)) = ["grid_initialized"; "grid_scrolled"].
Proof. vm_compute. done. Qed.

(** [unmount] runs no cleanup of [App]'s: it changes nothing. *)
Lemma unmount_keeps_timers w : timers (unmount w) = timers w.
Proof. reflexivity. Qed.

(** * Further properties of the service and of the page *)

(** ** [send] and [clear] *)

Lemma pop_prefix {A} (xs : list A) : pop xs `prefix_of` xs.
Proof.
  unfold pop. destruct xs as [|x xs]; [by exists []|].
  exists [List.last (x :: xs) x]. by apply app_removelast_last.
Qed.

Lemma pop_cons_cons {A} (x y : A) (xs : list A) :
  pop (x :: y :: xs) = x :: pop (y :: xs).
Proof. reflexivity. Qed.

(** X1. The event [send] returns is the one now at the head of the buffer, and the
    events behind it are the old buffer in its old order, cut at the end at
    most: [send] never reorders or drops an event from the middle. *)
Theorem send_puts_event_first (eventType : string) (data : Payload) (w : World) :
  buffer (send eventType data w).2 !! 0%nat = Some (send eventType data w).1
  ∧ tail (buffer (send eventType data w).2) `prefix_of` buffer w
  ∧ console (send eventType data w).2 = console w ++ [(send eventType data w).1].
Proof.
  rewrite send_buffer_step. cbv zeta.
  set (e := (send eventType data w).1). unfold unshift.
  split; [|split; [|reflexivity]].
  - destruct (Nat.ltb_spec 50 (length (e :: buffer w))) as [Hgt|_]; [|done].
    destruct (buffer w) as [|y b]; [cbn in Hgt; lia|]. by rewrite pop_cons_cons.
  - destruct (Nat.ltb_spec 50 (length (e :: buffer w))) as [Hgt|_]; [|done].
    destruct (buffer w) as [|y b]; [cbn in Hgt; lia|]. rewrite pop_cons_cons.
    cbn [tail]. apply pop_prefix.
Qed.

Lemma buffer_clear w : buffer (clear w) = [].
Proof. unfold buffer, clear, modify. apply deref_store_eq. Qed.

(** X2. [clear] empties the buffer whatever it held, leaves the console trace
    alone and is idempotent; the next [send] leaves exactly its own event in
    the buffer. *)
Theorem clear_empties_buffer (eventType : string) (data : Payload) (w : World) :
  buffer (clear w) = []
  ∧ clear (clear w) = clear w
  ∧ console (clear w) = console w
  ∧ buffer (send eventType data (clear w)).2 = [(send eventType data (clear w)).1].
Proof.
  split; [apply buffer_clear|]. split; [|split; [reflexivity|]].
  - unfold clear, modify, store. cbn [telemetry heap set_heap].
    unfold set_heap. cbn. by rewrite insert_insert_eq.
  - rewrite send_buffer by (rewrite buffer_clear; cbn; lia).
    by rewrite buffer_clear.
Qed.

(** ** The panel shows the buffer *)

Lemma page_ok_same w w' :
  heap w' = heap w → next_loc w' = next_loc w → telemetry w' = telemetry w →
  telemetryEvents w' = telemetryEvents w →
  totalEvents (stats w') = totalEvents (stats w) →
  page_ok w → page_ok w'.
Proof.
  unfold page_ok, separate_from_buffer, shownEvents, buffer, deref.
  by intros -> -> -> -> ->.
Qed.

Lemma buffer_sendTelemetryEvent eventType data w :
  (events (telemetry w) < next_loc w)%nat →
  buffer (sendTelemetryEvent eventType data w).2 = buffer (send eventType data w).2.
Proof.
  intros Hev. unfold sendTelemetryEvent.
  assert (Hne : next_loc w ≠ events (telemetry w)) by lia.
  destruct (send_frame eventType data w (next_loc w) Hne) as (_ & Hn & Ht).
  destruct (send eventType data w) as [e w1]; cbn [fst snd] in *.
  unfold buffer, deref, alloc; cbn.
  by rewrite Hn, Ht, lookup_insert_ne by lia.
Qed.

Lemma totalEvents_sendTelemetryEvent eventType data w :
  totalEvents (stats (sendTelemetryEvent eventType data w).2)
  = length (buffer (sendTelemetryEvent eventType data w).2).
Proof.
  unfold sendTelemetryEvent.
  destruct (send eventType data w) as [e w1]; cbn [fst snd]. reflexivity.
Qed.

Lemma page_ok_sendTelemetryEvent eventType data w :
  page_ok w →
  page_ok (sendTelemetryEvent eventType data w).2
  ∧ buffer (sendTelemetryEvent eventType data w).2
    = take 50 (stamped eventType data w :: buffer w).
Proof.
  intros ((Hne & Hlt & Hev) & Hshown & Htotal & Hlen).
  destruct (sendTelemetryEvent_snapshot eventType data w Hev) as (Hs & Ht & Hn & Hd).
  cbv zeta in *.
  pose proof (buffer_sendTelemetryEvent eventType data w Hev) as Hb.
  rewrite (send_buffer eventType data w Hlen) in Hb.
  change (send eventType data w).1 with (stamped eventType data w) in Hb.
  split; [|exact Hb].
  unfold page_ok, separate_from_buffer, shownEvents.
  rewrite Hs, Ht, Hn, Hd, totalEvents_sendTelemetryEvent.
  repeat split; try lia. rewrite Hb, length_take. lia.
Qed.

Lemma page_ok_clearTelemetry w :
  (events (telemetry w) < next_loc w)%nat →
  page_ok (clearTelemetry w)
  ∧ buffer (clearTelemetry w) = []
  ∧ shownEvents (clearTelemetry w) = []
  ∧ stats (clearTelemetry w)
    = {| totalEvents := 0; visibleRowsStat := 0; selectedRowsStat := 0 |}.
Proof.
  intros Hev.
  assert (Hb : buffer (clearTelemetry w) = []).
  { unfold clearTelemetry, clear, modify, store, alloc, buffer, deref; cbn.
    by rewrite lookup_insert_ne, lookup_insert_eq by lia. }
  assert (Hs : shownEvents (clearTelemetry w) = []).
  { unfold clearTelemetry, clear, modify, store, alloc, shownEvents, deref; cbn.
    by rewrite lookup_insert_eq. }
  split; [|done].
  unfold page_ok, separate_from_buffer. rewrite Hs, Hb.
  repeat split; cbn; lia.
Qed.

Lemma page_ok_events_allocated w : page_ok w → (events (telemetry w) < next_loc w)%nat.
Proof. by intros ((_ & _ & Hev) & _). Qed.

Lemma page_ok_scrollCallback api event w :
  page_ok w → page_ok (scrollCallback api event w).
Proof. intros Hok. unfold scrollCallback. by apply page_ok_sendTelemetryEvent. Qed.

Lemma page_ok_run_due target fuel : ∀ w, page_ok w → page_ok (run_due fuel target w).
Proof.
  induction fuel as [|fuel IH]; intros w Hok; [done|].
  cbn [run_due]. destruct (earliest (timers w)) as [t|]; [|done].
  destruct (deadline t <=? target); [|done].
  apply IH, page_ok_scrollCallback. by apply (page_ok_same w).
Qed.

Lemma page_ok_onBodyScroll event w : page_ok w → page_ok (onBodyScroll event w).
Proof.
  intros Hok. unfold onBodyScroll. destruct (gridApi w); [|done].
  destruct (scrollTimeoutRef w); by apply (page_ok_same w).
Qed.

Lemma page_ok_onRowSelected event w : page_ok w → page_ok (onRowSelected event w).
Proof.
  intros Hok. unfold onRowSelected.
  destruct (isSelected (rs_node event)), (rs_data event) as [d|]; cbv zeta.
  - pose proof (proj1 (page_ok_sendTelemetryEvent "row_selected"
                         (RowSelected (Row.id d) d "user_click") w Hok)) as Hok1.
    destruct (sendTelemetryEvent "row_selected" _ w) as [e w1]; cbn [snd] in *.
    destruct (gridApi w1); [|done]. by apply (page_ok_same w1).
  - destruct (gridApi w); [|done]. by apply (page_ok_same w).
  - destruct (gridApi w); [|done]. by apply (page_ok_same w).
  - destruct (gridApi w); [|done]. by apply (page_ok_same w).
Qed.

Lemma page_ok_happen h w : page_ok w → page_ok (happen h w).
Proof.
  intros Hok. destruct h as [api n fields| | | |event|event|dt| |g]; cbn [happen].
  - unfold onGridReady. apply page_ok_sendTelemetryEvent. by apply (page_ok_same w).
  - unfold extractVisibleRowsData. destruct (gridApi w); [|done]. cbv zeta.
    apply page_ok_sendTelemetryEvent. by apply (page_ok_same w).
  - unfold extractSelectedRowsData. destruct (gridApi w); [|done]. cbv zeta.
    apply page_ok_sendTelemetryEvent. by apply (page_ok_same w).
  - unfold extractAllGridData. destruct (gridApi w); [|done]. cbv zeta.
    by apply page_ok_sendTelemetryEvent.
  - by apply page_ok_onRowSelected.
  - by apply page_ok_onBodyScroll.
  - unfold advance. cbv zeta.
    apply (page_ok_same (run_due (length (timers w)) (clock w + dt) w)); try done.
    by apply page_ok_run_due.
  - by apply page_ok_clearTelemetry, page_ok_events_allocated.
  - by apply (page_ok_same w).
Qed.

Lemma page_ok_boot g now : page_ok (boot g now).
Proof.
  unfold page_ok, separate_from_buffer. vm_compute. repeat split; lia.
Qed.

Lemma page_ok_happenings hs : ∀ w, page_ok w → page_ok (happenings hs w).
Proof.
  unfold happenings. induction hs as [|h hs IH]; intros w Hok; [done|].
  cbn [fold_left]. by apply IH, page_ok_happen.
Qed.

(** X3. Whatever happens to the page after it loads, the list the telemetry panel
    renders is a copy of the service's buffer with the same contents, the
    Events counter is the buffer's length, and both stay within 50. *)
Theorem panel_always_shows_buffer (g : Grid) (now : Z) (hs : list Happening) :
  let w := happenings hs (boot g now) in
  telemetryEvents w ≠ events (telemetry w)
  ∧ shownEvents w = buffer w
  ∧ totalEvents (stats w) = length (buffer w)
  ∧ (totalEvents (stats w) ≤ 50)%nat.
Proof.
  cbv zeta.
  destruct (page_ok_happenings hs (boot g now) (page_ok_boot g now))
    as ((Hne & _) & Hs & Ht & Hl).
  repeat split; try done. lia.
Qed.

(** ** Event types and their colours *)

Lemma logs_refl w w' : console w' = console w → logs_app_events w w'.
Proof. intros H. exists []. by rewrite H, app_nil_r. Qed.

Lemma logs_trans w1 w2 w3 :
  logs_app_events w1 w2 → logs_app_events w2 w3 → logs_app_events w1 w3.
Proof.
  intros (e1 & H1 & F1) (e2 & H2 & F2). exists (e1 ++ e2).
  split; [by rewrite H2, H1, app_assoc|]. by apply Forall_app.
Qed.

Lemma logs_sendTelemetryEvent eventType data w :
  eventType ∈ appEventTypes →
  logs_app_events w (sendTelemetryEvent eventType data w).2.
Proof.
  intros Hty. exists [stamped eventType data w].
  split; [apply sendTelemetryEvent_console|].
  apply Forall_cons. split; [exact Hty|constructor].
Qed.

Lemma logs_run_due target fuel : ∀ w, logs_app_events w (run_due fuel target w).
Proof.
  induction fuel as [|fuel IH]; intros w; [by apply logs_refl|].
  cbn [run_due]. destruct (earliest (timers w)) as [t|]; [|by apply logs_refl].
  destruct (deadline t <=? target); [|by apply logs_refl].
  eapply logs_trans; [|apply IH].
  unfold scrollCallback.
  eapply logs_trans; [|apply logs_sendTelemetryEvent; set_solver].
  by apply logs_refl.
Qed.

Lemma logs_happen h w : logs_app_events w (happen h w).
Proof.
  destruct h as [api n fields| | | |event|event|dt| |g]; cbn [happen].
  - unfold onGridReady.
    eapply logs_trans; [|apply logs_sendTelemetryEvent; set_solver].
    by apply logs_refl.
  - unfold extractVisibleRowsData. destruct (gridApi w); [|by apply logs_refl].
    cbv zeta. eapply logs_trans; [|apply logs_sendTelemetryEvent; set_solver].
    by apply logs_refl.
  - unfold extractSelectedRowsData. destruct (gridApi w); [|by apply logs_refl].
    cbv zeta. eapply logs_trans; [|apply logs_sendTelemetryEvent; set_solver].
    by apply logs_refl.
  - unfold extractAllGridData. destruct (gridApi w); [|by apply logs_refl].
    cbv zeta. apply logs_sendTelemetryEvent; set_solver.
  - unfold onRowSelected.
    destruct (isSelected (rs_node event)), (rs_data event) as [d|]; cbv zeta.
    + eapply logs_trans; [apply (logs_sendTelemetryEvent "row_selected"
                                   (RowSelected (Row.id d) d "user_click")); set_solver|].
      destruct (sendTelemetryEvent "row_selected" _ w) as [e w1]; cbn [snd].
      destruct (gridApi w1); by apply logs_refl.
    + destruct (gridApi w); by apply logs_refl.
    + destruct (gridApi w); by apply logs_refl.
    + destruct (gridApi w); by apply logs_refl.
  - unfold onBodyScroll. destruct (gridApi w); [|by apply logs_refl].
    destruct (scrollTimeoutRef w); by apply logs_refl.
  - unfold advance. cbv zeta.
    eapply logs_trans; [apply logs_run_due|]. by apply logs_refl.
  - by apply logs_refl.
  - by apply logs_refl.
Qed.

Lemma logs_happenings hs : ∀ w, logs_app_events w (happenings hs w).
Proof.
  induction hs as [|h hs IH]; intros w; [by apply logs_refl|].
  unfold happenings. cbn [fold_left].
  eapply logs_trans; [apply logs_happen|apply IH].
Qed.

Lemma app_event_type_colours type :
  type ∈ appEventTypes →
  ∃ colour border,
    getEventColor type = OwnValue colour ∧ colour ≠ "bg-gray-500"
    ∧ getBorderColor type = OwnValue border ∧ border ≠ "#6b7280".
Proof.
  unfold appEventTypes. intros H.
  repeat (apply elem_of_cons in H as [->|H]);
    [eexists _, _; vm_compute; by repeat split..|by apply elem_of_nil in H].
Qed.

(** X4. Every event the page ever logs has one of the six event types of [App],
    and [EventCard] finds a colour and a border colour of its own for it: the
    gray fallbacks are never used for an event of the page.  A type that is
    neither in the tables nor a name of [Object.prototype] gets the
    fallbacks. *)
Theorem logged_events_have_own_colours (g : Grid) (now : Z) (hs : list Happening) :
  Forall (fun e =>
            Event.eventType e ∈ appEventTypes
            ∧ ∃ colour border,
                getEventColor (Event.eventType e) = OwnValue colour
                ∧ colour ≠ "bg-gray-500"
                ∧ getBorderColor (Event.eventType e) = OwnValue border
                ∧ border ≠ "#6b7280")
         (console (happenings hs (boot g now)))
  ∧ ∀ type, type ∉ appEventTypes → type ∉ objectPrototypeNames →
      getEventColor type = OwnValue "bg-gray-500"
      ∧ getBorderColor type = OwnValue "#6b7280".
Proof.
  split.
  - destruct (logs_happenings hs (boot g now)) as (evs & -> & Hall).
    change (console (boot g now)) with (@nil TelemetryEvent). cbn [app].
    eapply Forall_impl; [exact Hall|]. cbn. intros e He.
    split; [exact He|]. by apply app_event_type_colours.
  - intros type Hnot Hproto.
    assert (Hc : eventColors !! type = None).
    { unfold eventColors. apply not_elem_of_list_to_map_1. exact Hnot. }
    assert (Hb : borderColors !! type = None).
    { unfold borderColors. apply not_elem_of_list_to_map_1. exact Hnot. }
    unfold getEventColor, getBorderColor, getProperty. rewrite Hc, Hb.
    rewrite bool_decide_eq_false_2 by done. done.
Qed.

(** ** More on the scroll tracker *)




Lemma buffer_set_clock c w : buffer (set_clock c w) = buffer w.
Proof. reflexivity. Qed.

Lemma shownEvents_set_clock c w : shownEvents (set_clock c w) = shownEvents w.
Proof. reflexivity. Qed.

Lemma stats_set_clock c w : stats (set_clock c w) = stats w.
Proof. reflexivity. Qed.

(** X6. Clearing the telemetry log does not cancel a pending scroll debounce:
    after a scroll event and a click on Clear, the timer still fires 300 ms
    after the scroll, and the emptied buffer, the panel's list and the Events
    counter then hold that one [grid_scrolled] event. *)
Theorem clear_keeps_pending_scroll (w : World) (api : GridApi) (event : BodyScrollEvent) :
  gridApi w = Some api →
  tracker_ok w →
  page_ok w →
  let w' := advance 300 (clearTelemetry (onBodyScroll event w)) in
  let scrolled :=
    Event.mk (uuid_draws w) "grid_scrolled" (clock w + 300)
      (GridScrolled (Scroll.direction event)
         {| sv_firstRow := getFirstDisplayedRowIndex (grid w);
            sv_lastRow := getLastDisplayedRowIndex (grid w);
            sv_visibleRowCount :=
              getLastDisplayedRowIndex (grid w) - getFirstDisplayedRowIndex (grid w) + 1 |}
         (Scroll.top event, Scroll.left event)) in
  buffer (clearTelemetry (onBodyScroll event w)) = []
  ∧ buffer w' = [scrolled]
  ∧ shownEvents w' = [scrolled]
  ∧ totalEvents (stats w') = 1%nat.
Proof.
  intros Hapi Hok Hpage w' scrolled.
  set (w1 := onBodyScroll event w).
  assert (Hpage1 : page_ok w1) by (by apply page_ok_onBodyScroll).
  destruct (page_ok_clearTelemetry w1 (page_ok_events_allocated w1 Hpage1))
    as (Hpage2 & Hb2 & _).
  set (w2 := clearTelemetry w1) in *.
  split; [exact Hb2|].
  assert (Htm : timers w2 = [{| handle := next_handle w; deadline := clock w + 300;
                                closure_api := api; closure_event := event |}]).
  { unfold w2, w1. rewrite (onBodyScroll_rearms w api event Hapi Hok). reflexivity. }
  assert (Hclk : clock w2 = clock w).
  { unfold w2, w1. rewrite (onBodyScroll_rearms w api event Hapi Hok). reflexivity. }
  assert (Hu : uuid_draws w2 = uuid_draws w).
  { unfold w2, w1. rewrite (onBodyScroll_rearms w api event Hapi Hok). reflexivity. }
  assert (Hg : grid w2 = grid w).
  { unfold w2, w1. rewrite (onBodyScroll_rearms w api event Hapi Hok). reflexivity. }
  assert (Hw' : w' = advance 300 w2) by reflexivity.
  rewrite Hw', (advance_fires w2 _ 300 Htm) by (cbn [deadline]; rewrite Hclk; lia).
  cbn [closure_api closure_event deadline].
  set (w3 := set_clock (clock w + 300) (set_timers [] w2)).
  assert (Hpage3 : page_ok w3) by (by apply (page_ok_same w2)).
  assert (Hb3 : buffer w3 = []) by exact Hb2.
  unfold scrollCallback.
  destruct (page_ok_sendTelemetryEvent "grid_scrolled"
    (GridScrolled (Scroll.direction event)
       {| sv_firstRow := getFirstDisplayedRowIndex (api_grid api w3);
          sv_lastRow := getLastDisplayedRowIndex (api_grid api w3);
          sv_visibleRowCount :=
            getLastDisplayedRowIndex (api_grid api w3)
            - getFirstDisplayedRowIndex (api_grid api w3) + 1 |}
       (Scroll.top event, Scroll.left event)) w3 Hpage3)
    as ((_ & Hs4 & Ht4 & _) & Hb4).
  rewrite Hb3 in Hb4. cbn [take] in Hb4.
  assert (Hst : stamped "grid_scrolled"
    (GridScrolled (Scroll.direction event)
       {| sv_firstRow := getFirstDisplayedRowIndex (api_grid api w3);
          sv_lastRow := getLastDisplayedRowIndex (api_grid api w3);
          sv_visibleRowCount :=
            getLastDisplayedRowIndex (api_grid api w3)
            - getFirstDisplayedRowIndex (api_grid api w3) + 1 |}
       (Scroll.top event, Scroll.left event)) w3 = scrolled).
  { unfold stamped, scrolled, api_grid, w3.
    cbn [uuid_draws clock grid set_clock set_timers]. by rewrite Hu, Hg. }
  rewrite Hst in Hb4.
  destruct (sendTelemetryEvent "grid_scrolled" _ w3) as [e4 w4]. cbn [snd] in *.
  rewrite buffer_set_clock, shownEvents_set_clock, stats_set_clock.
  rewrite Ht4, Hs4, Hb4. done.
Qed.

Lemma page_ok_ready firstRow lastRow : page_ok (ready firstRow lastRow).
Proof.
  unfold ready, onGridReady. apply page_ok_sendTelemetryEvent.
  apply (page_ok_same (boot (gridShowing generateSampleData firstRow lastRow) 0));
    try done.
  apply page_ok_boot.
Qed.

Lemma clear_keeps_pending_scroll_witness :
  gridApi (ready 0 9) = Some TheGrid
  ∧ tracker_ok (ready 0 9)
  ∧ page_ok (ready 0 9)
  ∧ totalEvents
      (stats (advance 300
                (clearTelemetry (onBodyScroll (Scroll.mk "vertical" 120 0) (ready 0 9)))))
    = 1%nat.
Proof.
  assert (Hapi : gridApi (ready 0 9) = Some TheGrid) by reflexivity.
  assert (Hok : tracker_ok (ready 0 9)) by (by left).
  pose proof (page_ok_ready 0 9) as Hpage.
  split; [exact Hapi|]. split; [exact Hok|]. split; [exact Hpage|].
  exact (proj2 (proj2 (proj2
           (clear_keeps_pending_scroll (ready 0 9) TheGrid (Scroll.mk "vertical" 120 0)
              Hapi Hok Hpage)))).
Defined.

(** ** More on the extractors *)

Lemma filter_partition_length {A} (p : A → bool) (l : list A) :
  (length (List.filter p l) + length (List.filter (fun x => negb (p x)) l))%nat
  = length l.
Proof.
  induction l as [|x l IH]; [done|]. cbn [List.filter].
  destruct (p x); cbn [negb length]; lia.
Qed.

Lemma length_omap_le {A B} (f : A → option B) (l : list A) :
  (length (omap f l) ≤ length l)%nat.
Proof.
  induction l as [|x l IH]; [done|]. cbn [omap list_omap].
  destruct (f x); cbn [length]; lia.
Qed.

(** X7. With the grid available, the full-state extractor lists the data of the
    row nodes that have data, in the grid's iteration order; [totalRows] is
    their number, at most the number of nodes, and the in-stock and
    out-of-stock counts add up to [totalRows]. *)
Theorem full_state_counts_partition_rows (w : World) (api : GridApi) :
  gridApi w = Some api →
  ∃ meta cols filters view agg,
    console (extractAllGridData w)
    = console w ++
        [stamped "full_grid_state_extracted"
           (FullGridStateExtracted meta (omap node_data (forEachNode (grid w)))
              cols filters view agg) w]
    ∧ totalRows meta = length (omap node_data (forEachNode (grid w)))
    ∧ (totalRows meta ≤ length (forEachNode (grid w)))%nat
    ∧ (inStockCount agg + outOfStockCount agg)%nat = totalRows meta
    ∧ selectedRowsMeta meta = length (getSelectedRows (grid w)).
Proof.
  intros Hapi.
  pose proof (extractAllGridData_console w api Hapi) as Hc. cbv zeta in Hc.
  rewrite collectAll_omap in Hc.
  eexists _, _, _, _, _. split; [exact Hc|]. cbn.
  split; [done|]. split; [apply length_omap_le|].
  split; [apply filter_partition_length|done].
Qed.

Lemma full_state_counts_partition_rows_witness :
  gridApi (ready 0 14) = Some TheGrid
  ∧ ∃ meta cols filters view agg,
      console (extractAllGridData (ready 0 14))
      = console (ready 0 14) ++
          [stamped "full_grid_state_extracted"
             (FullGridStateExtracted meta
                (omap node_data (forEachNode (grid (ready 0 14))))
                cols filters view agg) (ready 0 14)]
      ∧ totalRows meta = length (omap node_data (forEachNode (grid (ready 0 14))))
      ∧ (totalRows meta ≤ length (forEachNode (grid (ready 0 14))))%nat
      ∧ (inStockCount agg + outOfStockCount agg)%nat = totalRows meta
      ∧ selectedRowsMeta meta = length (getSelectedRows (grid (ready 0 14))).
Proof.
  assert (Hapi : gridApi (ready 0 14) = Some TheGrid) by reflexivity.
  split; [exact Hapi|].
  exact (full_state_counts_partition_rows (ready 0 14) TheGrid Hapi).
Defined.

Lemma visibleRowsStat_extractVisibleRowsData w api :
  gridApi w = Some api →
  visibleRowsStat (stats (extractVisibleRowsData w))
  = length (collectVisible (grid w) (getFirstDisplayedRowIndex (grid w))
              (getLastDisplayedRowIndex (grid w)) []).
Proof.
  intros Hapi. unfold extractVisibleRowsData. rewrite Hapi. cbv zeta.
  set (f := fun prev : Stats => _).
  set (payload := VisibleRowsExtracted _ _ _ _).
  destruct (sendTelemetryEvent_frame "visible_rows_extracted" payload (setStats f w))
    as (_ & _ & _ & _ & _ & _ & _ & _ & Hv & _).
  cbv zeta in Hv. rewrite Hv. reflexivity.
Qed.

(** X8. With the grid available, whatever the grid holds, the viewport extractor
    emits exactly one [visible_rows_extracted] event; every row it lists is
    the data of a row displayed at an index of [first..last], the count it
    reports is the length of that list and never exceeds the size of the
    range, and the Visible Rows statistic is set to the same count. *)
Theorem visible_rows_count_within_range (w : World) (api : GridApi) :
  gridApi w = Some api →
  let first := getFirstDisplayedRowIndex (grid w) in
  let last := getLastDisplayedRowIndex (grid w) in
  ∃ rows,
    console (extractVisibleRowsData w)
    = console w ++
        [stamped "visible_rows_extracted"
           (VisibleRowsExtracted
              {| firstRowIndex := first; lastRowIndex := last;
                 visibleRowCount := length rows |}
              rows (map Row.id rows) (sumValue rows)) w]
    ∧ (∀ r, r ∈ rows → ∃ i, first ≤ i ≤ last ∧ rowDataAt (grid w) i = Some r)
    ∧ (Z.of_nat (length rows) ≤ Z.max 0 (last - first + 1))
    ∧ visibleRowsStat (stats (extractVisibleRowsData w)) = length rows.
Proof.
  intros Hapi first last.
  exists (omap (rowDataAt (grid w)) (seqZ first (last + 1 - first))).
  split; [exact (extractVisibleRowsData_console w api Hapi)|]. split; [|split].
  - intros r Hr. apply list_elem_of_omap in Hr as (i & Hi & Hri).
    apply elem_of_seqZ in Hi. exists i. split; [lia|done].
  - pose proof (length_omap_le (rowDataAt (grid w)) (seqZ first (last + 1 - first))) as Hle.
    rewrite length_seqZ in Hle. lia.
  - rewrite (visibleRowsStat_extractVisibleRowsData w api Hapi).
    fold first last. by rewrite collectVisible_range.
Qed.

Lemma visible_rows_count_within_range_witness :
  gridApi (ready 3 7) = Some TheGrid
  ∧ ∃ rows : list RowData,
      visibleRowsStat (stats (extractVisibleRowsData (ready 3 7))) = length rows
      ∧ Z.of_nat (length rows) ≤ Z.max 0 (7 - 3 + 1).
Proof.
  assert (Hapi : gridApi (ready 3 7) = Some TheGrid) by reflexivity.
  split; [exact Hapi|].
  destruct (visible_rows_count_within_range (ready 3 7) TheGrid Hapi)
    as (rows & _ & _ & Hbound & Hstat).
  exists rows. split; [exact Hstat|exact Hbound].
Defined.

(** ** Row selection, whatever the event and the grid's availability *)

(** X9. A [row_selected] event is emitted exactly when the reported node is
    selected and the event carries row data, whether or not the grid API is
    available; the Selected statistic is refreshed from the grid when the API
    is available and left as it was when it is not. *)
Theorem row_selected_emission_and_refresh (event : RowSelectedEvent) (w : World) :
  console (onRowSelected event w)
  = console w ++
      match isSelected (rs_node event), rs_data event with
      | true, Some d => [stamped "row_selected" (RowSelected (Row.id d) d "user_click") w]
      | _, _ => []
      end
  ∧ selectedRowsStat (stats (onRowSelected event w))
    = match gridApi w with
      | Some _ => length (getSelectedRows (grid w))
      | None => selectedRowsStat (stats w)
      end.
Proof.
  unfold onRowSelected.
  destruct (isSelected (rs_node event)), (rs_data event) as [d|]; cbv zeta.
  - pose proof (sendTelemetryEvent_console "row_selected"
                  (RowSelected (Row.id d) d "user_click") w) as Hc.
    destruct (sendTelemetryEvent_frame "row_selected"
                (RowSelected (Row.id d) d "user_click") w)
      as (Hg & Ha & _ & _ & _ & _ & _ & _ & _ & Hs).
    cbv zeta in *.
    destruct (sendTelemetryEvent "row_selected" _ w) as [e w1]. cbn [snd] in *.
    rewrite Ha. destruct (gridApi w); cbn; unfold api_grid; by rewrite ?Hc, ?Hg, ?Hs.
  - rewrite app_nil_r. by destruct (gridApi w).
  - rewrite app_nil_r. by destruct (gridApi w).
  - rewrite app_nil_r. by destruct (gridApi w).
Qed.

(** ** [TelemetryPanel] and [EventCard] *)

Lemma disarm_single h d : Timeouts.disarm h [(h, d)] = [].
Proof. unfold Timeouts.disarm. cbn. by rewrite Pos.eqb_refl. Qed.

Lemma panel_cleanup_disarms p :
  panel_ok p →
  match panelCleanup p with
  | Some h => Timeouts.disarm h (panelTimers p)
  | None => panelTimers p
  end = [].
Proof.
  intros [Hnil|(h & d & Ht & Hc)].
  - rewrite Hnil. by destruct (panelCleanup p).
  - rewrite Ht, Hc. apply disarm_single.
Qed.

Lemma panel_ok_effect evs now p : panel_ok p → panel_ok (panelEffect evs now p).
Proof.
  intros Hok. unfold panelEffect. rewrite (panel_cleanup_disarms p Hok). cbv zeta.
  destruct (_ && _)%bool; [right; by eexists _, _|by left].
Qed.

Lemma panel_ok_tick now p : panel_ok p → panel_ok (panelTick now p).
Proof.
  intros Hok. unfold panelTick.
  destruct (Timeouts.due now (panelTimers p)) as [|x l] eqn:Hdue; [done|].
  destruct Hok as [Hnil|(h & d & Ht & Hc)].
  - rewrite Hnil in Hdue. discriminate.
  - left. cbn [panelTimers]. rewrite Ht in *. unfold Timeouts.due, Timeouts.pending in *.
    cbn in *. by destruct (d <=? now).
Qed.

Lemma panelTick_idle now p : panelTimers p = [] → panelTick now p = p.
Proof. intros H. unfold panelTick. by rewrite H. Qed.

(** X10. When the list the panel is given has grown, its head event is flagged as
    the newest; the flag stays until 2500 ms have passed and is then
    cleared, leaving no timer armed. *)
Theorem panel_flags_new_head_for_2500ms (p : Panel) (e : TelemetryEvent)
    (older : list TelemetryEvent) (now : Z) :
  panel_ok p →
  (prevEventsLengthRef p < length (e :: older))%nat →
  let p1 := panelEffect (e :: older) now p in
  newestEventId p1 = Some (Event.id e)
  ∧ isNew p1 e = true
  ∧ prevEventsLengthRef p1 = length (e :: older)
  ∧ (∀ t, t < now + 2500 → panelTick t p1 = p1)
  ∧ (∀ t, now + 2500 ≤ t →
       newestEventId (panelTick t p1) = None ∧ panelTimers (panelTick t p1) = []).
Proof.
  intros Hok Hgrow. cbv zeta. unfold panelEffect.
  rewrite (panel_cleanup_disarms p Hok). cbv zeta.
  destruct (Nat.ltb_spec (prevEventsLengthRef p) (length (e :: older))) as [_|]; [|lia].
  cbn [andb length Nat.ltb Nat.leb app].
  split; [done|]. split; [unfold isNew; cbn; by rewrite bool_decide_eq_true|].
  split; [done|]. split.
  - intros t Ht. unfold panelTick, Timeouts.due. cbn.
    destruct (Z.leb_spec (now + 2500) t); [lia|done].
  - intros t Ht. unfold panelTick, Timeouts.due, Timeouts.pending. cbn.
    destruct (Z.leb_spec (now + 2500) t); [done|lia].
Qed.

Lemma panel_flags_new_head_for_2500ms_witness :
  let e := Event.mk 0 "grid_initialized" 0 (GridInitialized 15 columnFields "ag-grid-community") in
  panel_ok panelMounted
  ∧ (prevEventsLengthRef panelMounted < length [e])%nat
  ∧ newestEventId (panelEffect [e] 0 panelMounted) = Some 0%nat.
Proof.
  intros e.
  assert (Hok : panel_ok panelMounted) by (by left).
  assert (Hgrow : (prevEventsLengthRef panelMounted < length [e])%nat) by (cbn; lia).
  split; [exact Hok|]. split; [exact Hgrow|].
  exact (proj1 (panel_flags_new_head_for_2500ms panelMounted e [] 0 Hok Hgrow)).
Defined.

(** When the list has not grown and is not empty the effect flags nothing:
    it has already cancelled the timer of the previous run and arms no new
    one, so whatever was flagged before stays flagged however much time
    passes. *)
Lemma panel_keeps_flag_when_list_does_not_grow (p : Panel)
    (evs : list TelemetryEvent) (now : Z) :
  panel_ok p →
  (length evs ≤ prevEventsLengthRef p)%nat →
  let p1 := panelEffect evs now p in
  newestEventId p1 = newestEventId p
  ∧ panelTimers p1 = []
  ∧ ∀ t, panelTick t p1 = p1.
Proof.
  intros Hok Hle. cbv zeta. unfold panelEffect.
  rewrite (panel_cleanup_disarms p Hok). cbv zeta.
  destruct (Nat.ltb_spec (prevEventsLengthRef p) (length evs)) as [|_]; [lia|].
  cbn [andb]. split; [done|]. split; [done|]. intros t. by apply panelTick_idle.
Qed.

(** X11. Once the buffer holds 50 events the panel's list no longer grows, so the
    panel does not flag a further event as new even though it is on top of
    the list; the flag it held before (if any) is not cleared either, since
    the timer that would clear it has been cancelled. *)
Theorem panel_stops_flagging_when_buffer_full (w : World) (p : Panel)
    (eventType : string) (data : Payload) (now : Z) :
  page_ok w →
  length (buffer w) = 50%nat →
  panel_ok p →
  prevEventsLengthRef p = length (shownEvents w) →
  let w' := (sendTelemetryEvent eventType data w).2 in
  let p' := panelEffect (shownEvents w') now p in
  head (shownEvents w') = Some (stamped eventType data w)
  ∧ length (shownEvents w') = 50%nat
  ∧ newestEventId p' = newestEventId p
  ∧ panelTimers p' = []
  ∧ ∀ t, newestEventId (panelTick t p') = newestEventId p.
Proof.
  intros Hpage Hfull Hok Hprev w' p'.
  destruct (page_ok_sendTelemetryEvent eventType data w Hpage) as ((_ & Hs & _) & Hb).
  fold w' in Hs, Hb.
  assert (Hshown : shownEvents w' = stamped eventType data w :: take 49 (buffer w)).
  { rewrite Hs, Hb. reflexivity. }
  assert (Hlen : length (shownEvents w') = 50%nat).
  { rewrite Hshown. cbn [length]. rewrite length_take. lia. }
  destruct Hpage as (_ & Hs0 & _).
  destruct (panel_keeps_flag_when_list_does_not_grow p (shownEvents w') now Hok)
    as (Hn & Ht & Htick); [rewrite Hlen, Hprev, Hs0; lia|].
  fold p' in Hn, Ht, Htick.
  split; [by rewrite Hshown|]. split; [exact Hlen|]. split; [exact Hn|].
  split; [exact Ht|]. intros t. by rewrite Htick.
Qed.

Lemma panel_stops_flagging_when_buffer_full_witness :
  let w' := (sendTelemetryEvent "row_selected" (RowSelected 3 keyboard "user_click")
               fullPage).2 in
  page_ok fullPage
  ∧ length (buffer fullPage) = 50%nat
  ∧ panel_ok panelAtFifty
  ∧ prevEventsLengthRef panelAtFifty = length (shownEvents fullPage)
  ∧ Event.id <$> head (shownEvents w') = Some 50%nat
  ∧ newestEventId (panelEffect (shownEvents w') 0 panelAtFifty) = Some 49%nat.
Proof.
  intros w'.
  assert (Hpage : page_ok fullPage).
  { apply page_ok_happenings, page_ok_ready. }
  assert (Hfull : length (buffer fullPage) = 50%nat) by (vm_compute; reflexivity).
  assert (Hok : panel_ok panelAtFifty) by (by left).
  assert (Hprev : prevEventsLengthRef panelAtFifty = length (shownEvents fullPage))
    by (vm_compute; reflexivity).
  destruct (panel_stops_flagging_when_buffer_full fullPage panelAtFifty "row_selected"
              (RowSelected 3 keyboard "user_click") 0 Hpage Hfull Hok Hprev)
    as (Hhead & _ & Hnewest & _).
  fold w' in Hhead, Hnewest.
  split; [exact Hpage|]. split; [exact Hfull|]. split; [exact Hok|].
  split; [exact Hprev|]. split; [|exact Hnewest].
  rewrite Hhead. vm_compute. reflexivity.
Defined.

Lemma card_cleanup_disarms c :
  card_ok c →
  match cardCleanup c with
  | Some h => Timeouts.disarm h (cardTimers c)
  | None => cardTimers c
  end = [].
Proof.
  intros [Hnil|(h & d & Ht & Hc)].
  - rewrite Hnil. by destruct (cardCleanup c).
  - rewrite Ht, Hc. apply disarm_single.
Qed.

Lemma card_ok_effect b now c : card_ok c → card_ok (cardEffect b now c).
Proof.
  intros Hok. unfold cardEffect. rewrite (card_cleanup_disarms c Hok). cbv zeta.
  destruct b; [right; by eexists _, _|by left].
Qed.

Lemma cardEffect_flagged c now :
  card_ok c →
  cardEffect true now c
  = {| showAnimation := true; cardTimers := [(cardNextHandle c, now + 2500)];
       cardNextHandle := Pos.succ (cardNextHandle c);
       cardCleanup := Some (cardNextHandle c) |}.
Proof.
  intros Hok. unfold cardEffect. by rewrite (card_cleanup_disarms c Hok).
Qed.

Lemma cardTick_before c h d t :
  cardTimers c = [(h, d)] → t < d → cardTick t c = c.
Proof.
  intros Ht Hlt. unfold cardTick, Timeouts.due. rewrite Ht. cbn.
  destruct (Z.leb_spec d t); [lia|done].
Qed.

(** X12. A card whose [isNew] turns true shows its animation; 2500 ms later the
    animation is switched off, [isNew] still being true. *)
Theorem card_animation_ends_after_2500ms (c : Card) (now : Z) :
  card_ok c →
  let c1 := cardEffect true now c in
  showAnimation c1 = true
  ∧ (∀ t, t < now + 2500 → cardTick t c1 = c1)
  ∧ (∀ t, now + 2500 ≤ t →
       showAnimation (cardTick t c1) = false ∧ cardTimers (cardTick t c1) = []).
Proof.
  intros Hok. cbv zeta. rewrite (cardEffect_flagged c now Hok).
  split; [done|]. split.
  - intros t Ht. by eapply cardTick_before.
  - intros t Ht. unfold cardTick, Timeouts.due, Timeouts.pending. cbn.
    destruct (Z.leb_spec (now + 2500) t); [done|lia].
Qed.

Lemma card_animation_ends_after_2500ms_witness :
  card_ok cardMounted
  ∧ showAnimation (cardEffect true 0 cardMounted) = true
  ∧ showAnimation (cardTick 2500 (cardEffect true 0 cardMounted)) = false.
Proof.
  assert (Hok : card_ok cardMounted) by (by left).
  destruct (card_animation_ends_after_2500ms cardMounted 0 Hok) as (Hshow & _ & Hend).
  split; [exact Hok|]. split; [exact Hshow|].
  apply (Hend 2500). lia.
Defined.

(** X13. If [isNew] turns false again before the 2500 ms are over (a newer event
    was flagged), the effect's cleanup cancels the timer and nothing switches
    the animation off: the card keeps showing it however much time passes. *)
Theorem card_animation_stuck_when_unflagged_early (c : Card) (now later : Z) :
  card_ok c →
  later < now + 2500 →
  let c2 := cardEffect false later (cardTick later (cardEffect true now c)) in
  showAnimation c2 = true
  ∧ cardTimers c2 = []
  ∧ ∀ t, showAnimation (cardTick t c2) = true.
Proof.
  intros Hok Hearly. cbv zeta.
  rewrite (cardEffect_flagged c now Hok).
  rewrite (cardTick_before _ (cardNextHandle c) (now + 2500) later) by done.
  unfold cardEffect. cbn [cardCleanup cardTimers showAnimation].
  rewrite disarm_single.
  split; [done|]. split; [done|]. intros t. reflexivity.
Qed.

Lemma card_animation_stuck_when_unflagged_early_witness :
  card_ok cardMounted
  ∧ 1000 < 0 + 2500
  ∧ showAnimation
      (cardTick 100000
         (cardEffect false 1000 (cardTick 1000 (cardEffect true 0 cardMounted))))
    = true.
Proof.
  assert (Hok : card_ok cardMounted) by (by left).
  assert (Hearly : 1000 < 0 + 2500) by lia.
  split; [exact Hok|]. split; [exact Hearly|].
  exact (proj2 (proj2
           (card_animation_stuck_when_unflagged_early cardMounted 0 1000 Hok Hearly))
           100000).
Defined.

(** ** [highlightCode] *)

Module HighlightFacts.
Import Highlight.

Lemma startsWith_take prefix : ∀ s,
  startsWith prefix s = true →
  take (length prefix) s = prefix ∧ (length prefix ≤ length s)%nat.
Proof.
  induction prefix as [|p prefix IH]; intros s H; [by split; [|cbn; lia]|].
  destruct s as [|c s]; [discriminate|]. cbn [startsWith] in H.
  apply andb_true_iff in H as [Hpc Hrest]. apply N.eqb_eq in Hpc as ->.
  destruct (IH s Hrest) as [Ht Hl]. cbn [length take]. split; [by rewrite Ht|lia].
Qed.

Lemma takeWhile_take p : ∀ s,
  take (length (takeWhile p s)) s = takeWhile p s
  ∧ forallb p (takeWhile p s) = true.
Proof.
  induction s as [|c s [IH1 IH2]]; [done|]. cbn [takeWhile].
  destruct (p c) eqn:Hp; [|done]. cbn [length take forallb].
  by rewrite IH1, Hp, IH2.
Qed.

Lemma closeQuote_spec quote : ∀ s n,
  closeQuote quote s = Some n →
  ∃ body, take n s = body ++ [quote] ∧ (quote ∉ body)
          ∧ n = S (length body) ∧ (n ≤ length s)%nat.
Proof.
  induction s as [|c s IH]; intros n H; [discriminate|].
  cbn [closeQuote] in H. destruct (N.eqb_spec c quote) as [->|Hne].
  - injection H as <-. exists []. cbn. repeat split; [apply not_elem_of_nil|lia].
  - destruct (isLineTerminator c); [discriminate|].
    destruct (closeQuote quote s) as [k|] eqn:Hk; [|discriminate].
    injection H as <-. destruct (IH k eq_refl) as (body & Ht & Hnot & -> & Hle).
    exists (c :: body). cbn [take length app]. rewrite Ht.
    repeat split; [|lia]. apply not_elem_of_cons. split; [congruence|done].
Qed.

Lemma matchQuoted_spec quote rest n :
  matchQuoted quote rest = Some n →
  (n ≤ length rest)%nat
  ∧ ∃ body, take n rest = quote :: body ++ [quote] ∧ (quote ∉ body).
Proof.
  unfold matchQuoted. destruct rest as [|c rest]; [discriminate|].
  destruct (N.eqb_spec c quote) as [->|]; [|discriminate].
  destruct (closeQuote quote rest) as [k|] eqn:Hk; [|discriminate].
  intros H. injection H as <-.
  destruct (closeQuote_spec quote rest k Hk) as (body & Ht & Hnot & _ & Hle).
  split; [cbn; lia|]. exists body. cbn [take]. by rewrite Ht.
Qed.

Lemma matchWords_spec words prev rest n :
  matchWords words prev rest = Some n →
  ∃ w, w ∈ words ∧ n = length w ∧ take n rest = w ∧ (n ≤ length rest)%nat.
Proof.
  unfold matchWords. destruct (wordBoundary prev (head rest)); [|discriminate].
  destruct (List.find _ words) as [w|] eqn:Hf; [|discriminate].
  intros H. injection H as <-.
  apply List.find_some in Hf as [Hin Hw]. apply andb_true_iff in Hw as [Hs _].
  destruct (startsWith_take w rest Hs) as [Ht Hl].
  exists w. repeat split; [by apply list_elem_of_In|done|done].
Qed.

Lemma words_not_empty w : w ∈ keywords ∨ w ∈ typeNames → w ≠ [].
Proof.
  intros [H|H]; intros ->; revert H; vm_compute;
    intros H; repeat (apply elem_of_cons in H as [H|H]; [discriminate|]);
      by apply elem_of_nil in H.
Qed.

(** A match at a position is at least one unit long, lies within the rest of
    the input, and its group tells what it holds. *)
Lemma matchAt_spec prev rest n g :
  matchAt prev rest = Some (n, g) →
  (0 < n ≤ length rest)%nat ∧ spanHolds (Span (className g) (take n rest)).
Proof.
  unfold matchAt.
  destruct (matchWords keywords prev rest) as [k|] eqn:H1.
  { intros H. injection H as Hn Hg. subst n g.
    destruct (matchWords_spec _ _ _ _ H1) as (w & Hin & -> & Ht & Hl).
    pose proof (words_not_empty w (or_introl Hin)).
    split; [destruct w; [done|cbn in *; lia]|]. cbn. left. by rewrite Ht. }
  destruct (matchWords typeNames prev rest) as [k|] eqn:H2.
  { intros H. injection H as Hn Hg. subst n g.
    destruct (matchWords_spec _ _ _ _ H2) as (w & Hin & -> & Ht & Hl).
    pose proof (words_not_empty w (or_intror Hin)).
    split; [destruct w; [done|cbn in *; lia]|]. cbn. right; left. by rewrite Ht. }
  destruct (matchComment rest) as [k|] eqn:H3.
  { intros H. injection H as Hn Hg. subst n g. unfold matchComment in H3.
    destruct (startsWith (units "//") rest) eqn:Hs; [|discriminate].
    destruct (forallb _ _); [|discriminate]. injection H3 as <-.
    destruct (startsWith_take _ _ Hs) as [_ Hl]. cbn in Hl.
    split; [lia|]. cbn. right; right; left. by rewrite firstn_all. }
  destruct (matchString rest) as [k|] eqn:H4.
  { intros H. injection H as Hn Hg. subst n g. unfold matchString in H4.
    destruct (matchQuoted 39 rest) as [k1|] eqn:Hq1.
    - injection H4 as Hk. subst k1.
      destruct (matchQuoted_spec _ _ _ Hq1) as (Hl & body & Ht & Hnot).
      split; [|cbn; right; right; right; left; split; [done|]; exists 39%N, body; auto].
      assert (length (take k rest) = S (length (body ++ [39%N]))) by (by rewrite Ht).
      rewrite length_take in *. lia.
    - destruct (matchQuoted_spec _ _ _ H4) as (Hl & body & Ht & Hnot).
      split; [|cbn; right; right; right; left; split; [done|]; exists 34%N, body; auto].
      assert (length (take k rest) = S (length (body ++ [34%N]))) by (by rewrite Ht).
      rewrite length_take in *. lia. }
  destruct (matchNumber rest) as [k|] eqn:H5; [|discriminate].
  intros H. injection H as Hn Hg. subst n g. unfold matchNumber in H5.
  destruct (takeWhile_take isDigit rest) as [Ht Hd].
  destruct (takeWhile isDigit rest) as [|d ds] eqn:Hw; [discriminate|].
  injection H5 as Hk. subst k.
  assert (Hl : length (take (length (d :: ds)) rest) = length (d :: ds)) by (by rewrite Ht).
  rewrite length_take in Hl. cbn [length] in *. rewrite Ht.
  split; [lia|]. cbn [spanHolds className]. right; right; right; right.
  by repeat split.
Qed.

Lemma search_spec : ∀ rest prev i m,
  search prev rest i = Some m →
  ∃ k, index m = (i + k)%nat
       ∧ (0 < length (text m))%nat
       ∧ (k + length (text m) ≤ length rest)%nat
       ∧ text m = take (length (text m)) (drop k rest)
       ∧ spanHolds (Span (className (group m)) (text m)).
Proof.
  induction rest as [|c rest IH]; intros prev i m H; cbn [search] in H.
  - destruct (matchAt prev []) as [[n g]|] eqn:Hm; [|discriminate].
    destruct (matchAt_spec _ _ _ _ Hm) as [Hn _]. cbn in Hn. lia.
  - destruct (matchAt prev (c :: rest)) as [[n g]|] eqn:Hm.
    + injection H as <-. destruct (matchAt_spec _ _ _ _ Hm) as [Hn Hs].
      exists 0%nat. cbn [index text group drop].
      rewrite length_take, Nat.min_l by lia.
      repeat split; try lia; done.
    + destruct (IH _ _ _ H) as (k & Hi & Hpos & Hle & Ht & Hs).
      exists (S k). cbn [drop length]. repeat split; try lia; done.
Qed.

Lemma exec_spec line lastIndex m :
  exec line lastIndex = Some m →
  (lastIndex ≤ index m)%nat
  ∧ (0 < length (text m))%nat
  ∧ (index m + length (text m) ≤ length line)%nat
  ∧ text m = slice line (index m) (index m + length (text m))
  ∧ spanHolds (Span (className (group m)) (text m)).
Proof.
  unfold exec. destruct (Nat.ltb_spec (length line) lastIndex) as [|Hin]; [discriminate|].
  intros Hsearch.
  destruct (search_spec _ _ _ _ Hsearch) as (k & Hi & Hpos & Hle & Ht & Hs).
  rewrite length_drop in Hle. rewrite drop_drop in Ht.
  repeat split; try lia; [|done].
  unfold slice. rewrite Hi.
  replace (lastIndex + k + length (text m) - (lastIndex + k))%nat
    with (length (text m)) by lia.
  exact Ht.
Qed.

Lemma take_slice (line : jsString) (a b : nat) :
  (a ≤ b)%nat → take a line ++ slice line a b = take b line.
Proof.
  intros Hab. unfold slice.
  rewrite <- (take_drop a (take b line)) at 1.
  rewrite take_take, Nat.min_l by lia. f_equal.
  by rewrite <- (skipn_firstn_comm).
Qed.

(** The loop keeps the text, yields well-classified parts and, given enough
    fuel, stops only when nothing more matches. *)
Lemma loop_spec line : ∀ fuel at_ parts,
  (at_ ≤ length line)%nat →
  concat (map partText parts) = take at_ line →
  Forall spanHolds parts →
  concat (map partText (loop fuel line at_ at_ parts).1)
  = take (loop fuel line at_ at_ parts).2 line
  ∧ ((loop fuel line at_ at_ parts).2 ≤ length line)%nat
  ∧ Forall spanHolds (loop fuel line at_ at_ parts).1
  ∧ ((length line - at_ < fuel)%nat →
     exec line (loop fuel line at_ at_ parts).2 = None).
Proof.
  induction fuel as [|fuel IH]; intros at_ parts Hat Htext Hparts.
  - cbn [loop fst snd]. repeat split; try done. lia.
  - cbn [loop]. destruct (exec line at_) as [m|] eqn:Hexec.
    + destruct (exec_spec _ _ _ Hexec) as (Hle & Hpos & Hend & Hm & Hspan).
      cbv zeta.
      set (parts1 := if (at_ <? index m)%nat
                     then parts ++ [Text (slice line at_ (index m))] else parts).
      assert (H1 : concat (map partText parts1) = take (index m) line
                   ∧ Forall spanHolds parts1).
      { unfold parts1. destruct (Nat.ltb_spec at_ (index m)) as [Hlt|Hge].
        - rewrite map_app, concat_app, Htext. cbn. rewrite app_nil_r.
          split; [by apply take_slice|].
          apply Forall_app. split; [done|]. constructor; [|constructor]. cbn.
          intros Hnil. apply (f_equal length) in Hnil. unfold slice in Hnil.
          rewrite length_take, length_drop in Hnil. cbn in Hnil. lia.
        - assert (at_ = index m) as -> by lia. done. }
      destruct H1 as [Ht1 Hp1].
      destruct (IH (index m + length (text m))%nat
                  (parts1 ++ [Span (className (group m)) (text m)])) as (R1 & R2 & R3 & R4).
      * lia.
      * rewrite map_app, concat_app, Ht1. cbn. rewrite app_nil_r.
        rewrite Hm at 1. apply take_slice. lia.
      * apply Forall_app. split; [done|]. constructor; [exact Hspan|constructor].
      * repeat split; try done. intros Hfuel. apply R4. lia.
    + cbn [fst snd]. repeat split; done.
Qed.

(** X14. Highlighting a line never changes its text: the strings and spans that
    [highlightCode] returns, read in order, spell the line it was given. *)
Theorem highlightCode_keeps_text (line : jsString) :
  renderedText (highlightCode line) = line.
Proof.
  unfold highlightCode. destruct (startsWith _ (trim line)); [done|].
  destruct (loop_spec line (S (length line)) 0 []) as (Ht & Hle & _ & _);
    [lia|done|constructor|].
  destruct (loop (S (length line)) line 0 0 []) as [parts stop]. cbn [fst snd] in *.
  destruct (Nat.ltb_spec stop (length line)) as [Hlt|Hge].
  - assert (Hall : concat (map partText (parts ++ [Text (drop stop line)])) = line).
    { rewrite map_app, concat_app, Ht. cbn. rewrite app_nil_r. apply take_drop. }
    destruct (parts ++ [Text (drop stop line)]) as [|p ps] eqn:Hp; [|exact Hall].
    by destruct parts.
  - rewrite take_ge in Ht by lia. destruct parts; [done|exact Ht].
Qed.

Lemma search_unfold prev rest i :
  search prev rest i
  = match matchAt prev rest with
    | Some (n, g) => Some {| index := i; text := take n rest; group := g |}
    | None =>
        match rest with
        | [] => None
        | c :: rest' => search (Some c) rest' (S i)
        end
    end.
Proof. by destruct rest. Qed.

Lemma last_take_S (line : jsString) i c :
  line !! i = Some c → last (take (S i) line) = Some c.
Proof.
  intros Hc. pose proof (lookup_lt_Some _ _ _ Hc) as Hlt.
  rewrite last_lookup, length_take, Nat.min_l by lia. cbn [pred].
  by rewrite lookup_take_lt by lia.
Qed.

(** [search] finds the first index at or after [i] where the expression
    matches, and fails only when there is none up to the end of the line. *)
Lemma search_index line : ∀ n i,
  (length line - i)%nat = n → (i ≤ length line)%nat →
  match search (last (take i line)) (drop i line) i with
  | Some m =>
      (i ≤ index m ≤ length line)%nat
      ∧ (∀ j, (i ≤ j < index m)%nat → matchAtIndex line j = None)
      ∧ matchAtIndex line (index m) = Some (length (text m), group m)
      ∧ text m = take (length (text m)) (drop (index m) line)
  | None => ∀ j, (i ≤ j ≤ length line)%nat → matchAtIndex line j = None
  end.
Proof.
  induction n as [|n IH]; intros i Hn Hi; rewrite search_unfold;
    destruct (matchAt (last (take i line)) (drop i line)) as [[k g]|] eqn:Hm.
  - destruct (matchAt_spec _ _ _ _ Hm) as [Hk _]. rewrite length_drop in Hk. lia.
  - rewrite drop_ge by lia. intros j Hj. assert (j = i) as -> by lia. exact Hm.
  - destruct (matchAt_spec _ _ _ _ Hm) as [Hk _]. cbn [index text group].
    rewrite length_take, Nat.min_l by lia.
    repeat split; [lia|lia|intros j Hj; lia|exact Hm].
  - destruct (drop i line) as [|c rest'] eqn:Hd.
    { apply (f_equal length) in Hd. rewrite length_drop in Hd. cbn in Hd. lia. }
    assert (Hc : line !! i = Some c).
    { rewrite <- (take_drop i line) at 1. rewrite Hd, lookup_app_r; rewrite length_take;
        [|lia]. by replace (i - i `min` length line)%nat with 0%nat by lia. }
    assert (Hrest : drop (S i) line = rest').
    { rewrite (drop_S _ _ _ Hc) in Hd. by injection Hd. }
    pose proof (lookup_lt_Some _ _ _ Hc) as Hlt.
    specialize (IH (S i)). rewrite (last_take_S _ _ _ Hc), Hrest in IH.
    specialize (IH ltac:(lia) ltac:(lia)).
    assert (Hhere : matchAtIndex line i = None) by (unfold matchAtIndex; by rewrite Hd).
    destruct (search (Some c) rest' (S i)) as [m|].
    + destruct IH as (Hle & Hnone & Hat & Htext).
      repeat split; [lia|lia| |exact Hat|exact Htext].
      intros j Hj. destruct (decide (j = i)) as [->|]; [exact Hhere|apply Hnone; lia].
    + intros j Hj. destruct (decide (j = i)) as [->|]; [exact Hhere|apply IH; lia].
Qed.

Lemma exec_index line lastIndex :
  (lastIndex ≤ length line)%nat →
  match exec line lastIndex with
  | Some m =>
      (lastIndex ≤ index m ≤ length line)%nat
      ∧ (∀ j, (lastIndex ≤ j < index m)%nat → matchAtIndex line j = None)
      ∧ matchAtIndex line (index m) = Some (length (text m), group m)
      ∧ text m = take (length (text m)) (drop (index m) line)
  | None => ∀ j, (lastIndex ≤ j ≤ length line)%nat → matchAtIndex line j = None
  end.
Proof.
  intros Hle. unfold exec.
  destruct (Nat.ltb_spec (length line) lastIndex) as [|_]; [lia|].
  by apply (search_index line (length line - lastIndex)).
Qed.

Lemma partsFrom_app line : ∀ parts1 parts2 i mid stop,
  partsFrom line i parts1 mid → partsFrom line mid parts2 stop →
  partsFrom line i (parts1 ++ parts2) stop.
Proof.
  induction parts1 as [|p parts1 IH]; intros parts2 i mid stop H1 H2.
  - cbn in H1. by subst.
  - cbn [partsFrom app] in *. destruct H1 as [Hp H1]. split; [exact Hp|].
    by apply (IH _ _ mid).
Qed.

(** The loop lays the parts one after the other: the matches as spans, what
    lies between them as strings holding no match. *)
Lemma loop_parts line : ∀ fuel at_ parts,
  (at_ ≤ length line)%nat →
  (length line - at_ < fuel)%nat →
  partsFrom line 0 parts at_ →
  partsFrom line 0 (loop fuel line at_ at_ parts).1 (loop fuel line at_ at_ parts).2
  ∧ ((loop fuel line at_ at_ parts).2 ≤ length line)%nat
  ∧ (∀ j, ((loop fuel line at_ at_ parts).2 ≤ j ≤ length line)%nat →
          matchAtIndex line j = None).
Proof.
  induction fuel as [|fuel IH]; intros at_ parts Hat Hfuel Hparts; [lia|].
  cbn [loop]. pose proof (exec_index line at_ Hat) as Hx.
  destruct (exec line at_) as [m|] eqn:Hexec; [|cbn [fst snd]; by repeat split].
  destruct Hx as (Hle & Hnone & Hmatch & Htext).
  destruct (exec_spec _ _ _ Hexec) as (_ & Hpos & Hend & _ & _).
  cbv zeta.
  set (parts1 := if (at_ <? index m)%nat
                 then parts ++ [Text (slice line at_ (index m))] else parts).
  assert (H1 : partsFrom line 0 parts1 (index m)).
  { unfold parts1. destruct (Nat.ltb_spec at_ (index m)) as [Hlt|Hge].
    - apply (partsFrom_app line parts _ 0%nat at_); [exact Hparts|].
      assert (Hlen : length (slice line at_ (index m)) = (index m - at_)%nat).
      { unfold slice. rewrite length_take, length_drop. lia. }
      cbn [partsFrom partText partAt]. rewrite Hlen.
      split; [|lia]. split; [reflexivity|]. split.
      { intros Hnil. rewrite Hnil in Hlen. cbn in Hlen. lia. }
      split; [intros j Hj; apply Hnone; lia|].
      right. replace (at_ + (index m - at_))%nat with (index m) by lia.
      by rewrite Hmatch.
    - by assert (at_ = index m) as -> by lia. }
  apply IH; [lia|lia|].
  apply (partsFrom_app line parts1 _ 0%nat (index m)); [exact H1|].
  cbn [partsFrom partText partAt]. split; [|done].
  split; [exact Htext|]. by exists (group m).
Qed.

(** X15. [highlightCode] returns a line whose trimmed text starts with two
    slashes whole, as one comment span, and the bare line only when it is
    empty.  Any other line comes back as parts standing one after the other
    from its first to its last unit: every span is the leftmost match of the
    expression after the previous part, in the colour of its group, and every
    string between spans is not empty and holds no index where the expression
    matches.  A purple span is one of the keywords, a cyan span one of the
    type names, a gray span starts with two slashes, a green span is a quoted
    string with no inner occurrence of its quote, an amber span is a run of
    digits. *)
Theorem highlightCode_classifies (line : jsString) :
  if startsWith (units "//") (trim line)
  then highlightCode line = CommentLine line
  else (line = [] ∧ highlightCode line = Plain line)
       ∨ (∃ parts, highlightCode line = Fragment parts
                   ∧ parts ≠ []
                   ∧ partsFrom line 0 parts (length line)
                   ∧ Forall spanHolds parts).
Proof.
  unfold highlightCode. destruct (startsWith _ (trim line)) eqn:Hs; [done|].
  destruct (loop_spec line (S (length line)) 0 []) as (Ht & _ & Hall & _);
    [lia|done|constructor|].
  destruct (loop_parts line (S (length line)) 0 []) as (Hparts & Hle & Hnone);
    [lia|lia|done|].
  destruct (loop (S (length line)) line 0 0 []) as [parts stop]. cbn [fst snd] in *.
  destruct (Nat.ltb_spec stop (length line)) as [Hlt|Hge].
  - right.
    assert (Hlen : length (drop stop line) = (length line - stop)%nat)
      by apply length_drop.
    assert (Hall' : Forall spanHolds (parts ++ [Text (drop stop line)])).
    { apply Forall_app. split; [done|]. constructor; [|constructor]. cbn.
      intros Hnil. rewrite Hnil in Hlen. cbn in Hlen. lia. }
    assert (Hparts' : partsFrom line 0 (parts ++ [Text (drop stop line)]) (length line)).
    { apply (partsFrom_app line parts _ 0%nat stop); [exact Hparts|].
      cbn [partsFrom partText partAt]. rewrite Hlen.
      split; [|lia]. split; [by rewrite take_ge by lia|]. split.
      { intros Hnil. rewrite Hnil in Hlen. cbn in Hlen. lia. }
      split; [intros j Hj; apply Hnone; lia|left; lia]. }
    cbv zeta. destruct (parts ++ [Text (drop stop line)]) as [|p ps] eqn:Hp.
    { by destruct parts. }
    exists (p :: ps). split; [done|]. split; [done|]. by split.
  - assert (stop = length line) as -> by lia.
    destruct parts as [|p ps].
    + left. cbn in Ht. rewrite take_ge in Ht by lia. by split.
    + right. exists (p :: ps). split; [done|]. split; [done|]. by split.
Qed.

(** One line with every kind of span. *)
Example highlightCode_five_colours :
  highlightCode (units "const n: number = 'a' + 42 // done")
  = Fragment [Span "text-purple-400" (units "const");
              Text (units " n: ");
              Span "text-cyan-400" (units "number");
              Text (units " = ");
              Span "text-emerald-400" (units "'a'");
              Text (units " + ");
              Span "text-amber-400" (units "42");
              Text (units " ");
              Span "text-slate-500" (units "// done")].
Proof. vm_compute. reflexivity. Qed.

End HighlightFacts.
